(** * Open-Weather-System: a shallow embedding of [app.py]

    The development follows the layout of the source file:
    - the Python values the program manipulates (exceptions, numbers, the
      documents returned by [response.json()]);
    - the weather functions [get_current_weather] and [get_weekly_forecast];
    - the Flask views [register], [login], [dashboard], [update_city],
      [api_weather] and [update_preferences], as functions from the persistent
      store and the session to a new store, a new session and a response.

    What the source takes from its runtime and not from its own text (binary64
    rounding, the iteration order of a [set], the local time zone, the
    password hashing of werkzeug, Unicode case mapping) is collected in the
    class [PyRuntime]. *)

From Stdlib Require Import List ZArith QArith Qround Qabs String Ascii DecimalString.
From Stdlib Require Import Bool Lia Lqa Permutation.
Import ListNotations.

Set Warnings "-register-all".

Open Scope string_scope.
Open Scope Z_scope.

(** ** Exceptions and outcomes *)

(** The subclasses of [Exception] that the modelled operations raise.  All of
    them are caught by [except Exception]. *)
Inductive exn : Type :=
| KeyError
| IndexError
| TypeError
| ValueError
| OverflowError
| ZeroDivisionError
| AttributeError
| OSError
| JSONDecodeError
| RequestException.

(** The result of evaluating a Python expression or block. *)
Inductive outcome (A : Type) : Type :=
| Return (a : A)
| Raise (e : exn).

Arguments Return {A} a.
Arguments Raise {A} e.

Definition bind {A B : Type} (c : outcome A) (k : A -> outcome B) : outcome B :=
  match c with
  | Return a => k a
  | Raise e => Raise e
  end.

Notation "x <- c ;; k" := (bind c (fun x => k))
  (at level 61, c at next level, right associativity).

(** [try: body except Exception as e: handler(e)] *)
Definition try_except {A : Type} (body : outcome A) (handler : exn -> outcome A) : outcome A :=
  match body with
  | Return a => Return a
  | Raise e => handler e
  end.

(** Folding a fallible step over a list: the body of a [for] loop. *)
Fixpoint for_each {S A : Type} (step : S -> A -> outcome S) (l : list A) (s : S) : outcome S :=
  match l with
  | [] => Return s
  | x :: t => s' <- step s x ;; for_each step t s'
  end.

(** ** Numbers *)

(** A Python [float].  A finite float is represented by its exact value; the
    representable values are a subset of the rationals, so a statement over all
    [FFin q] covers every finite float. *)
Inductive pyfloat : Type :=
| FFin (q : Q)
| FPosInf
| FNegInf
| FNaN.

(** A Python number: an [int] of arbitrary size or a [float]. *)
Inductive num : Type :=
| NInt (z : Z)
| NFloat (f : pyfloat).

Definition float_of_num (n : num) : pyfloat :=
  match n with
  | NInt z => FFin (inject_Z z)
  | NFloat f => f
  end.

Definition Qltb (x y : Q) : bool :=
  match (x ?= y)%Q with
  | Lt => true
  | _ => false
  end.

(** [a < b] on floats; every comparison with NaN is false. *)
Definition float_lt (a b : pyfloat) : bool :=
  match a, b with
  | FNaN, _ | _, FNaN => false
  | FFin x, FFin y => Qltb x y
  | FNegInf, FNegInf => false
  | FNegInf, _ => true
  | _, FNegInf => false
  | FPosInf, _ => false
  | _, FPosInf => true
  end.

(** Python compares an [int] with a [float] by their exact values. *)
Definition num_lt (a b : num) : bool := float_lt (float_of_num a) (float_of_num b).

(** [==] on numbers, as the containers apply it ([x is y or x == y]): the
    decoder of the [json] module maps every NaN literal to one shared object,
    so a NaN met in a document is identical to any other. *)
Definition num_eq (a b : num) : bool :=
  match float_of_num a, float_of_num b with
  | FFin x, FFin y => Qeq_bool x y
  | FPosInf, FPosInf => true
  | FNegInf, FNegInf => true
  | FNaN, FNaN => true
  | _, _ => false
  end.

(** Rounding to the nearest integer, a tie going to the even neighbour:
    [float.__round__] without [ndigits]. *)
Definition round_half_even (q : Q) : Z :=
  let f := Qfloor q in
  match (q - inject_Z f ?= 1 # 2)%Q with
  | Lt => f
  | Gt => f + 1
  | Eq => if Z.even f then f else f + 1
  end.

(** [round(x)] *)
Definition round_num (n : num) : outcome Z :=
  match n with
  | NInt z => Return z
  | NFloat (FFin q) => Return (round_half_even q)
  | NFloat FNaN => Raise ValueError
  | NFloat _ => Raise OverflowError
  end.

(** ** Documents *)

(** The value of [response.json()]. *)
Inductive json : Type :=
| JNull
| JBool (b : bool)
| JNum (n : num)
| JStr (s : string)
| JList (l : list json)
| JDict (kv : list (string * json)).

(** [bool] is a subclass of [int]. *)
Definition as_num (x : json) : option num :=
  match x with
  | JBool b => Some (NInt (if b then 1 else 0))
  | JNum n => Some n
  | _ => None
  end.

Fixpoint lookup {A : Type} (k : string) (kv : list (string * A)) : option A :=
  match kv with
  | [] => None
  | (k', v) :: t => if String.eqb k k' then Some v else lookup k t
  end.

(** [x[k]] for a string key [k] *)
Definition getitem (x : json) (k : string) : outcome json :=
  match x with
  | JDict kv =>
      match lookup k kv with
      | Some v => Return v
      | None => Raise KeyError
      end
  | _ => Raise TypeError
  end.

(** [x[0]]; a decoded object has string keys only, so [0] is never one. *)
Definition getitem0 (x : json) : outcome json :=
  match x with
  | JList (v :: _) => Return v
  | JList [] => Raise IndexError
  | JStr (String c _) => Return (JStr (String c EmptyString))
  | JStr EmptyString => Raise IndexError
  | JDict _ => Raise KeyError
  | _ => Raise TypeError
  end.

Fixpoint chars (s : string) : list json :=
  match s with
  | EmptyString => []
  | String c t => JStr (String c EmptyString) :: chars t
  end.

(** [for item in x]: the elements of a list, the characters of a string, the
    keys of an object. *)
Definition iterate (x : json) : outcome (list json) :=
  match x with
  | JList l => Return l
  | JStr s => Return (chars s)
  | JDict kv => Return (map (fun p => JStr (fst p)) kv)
  | _ => Raise TypeError
  end.

(** [round(x)] on a value of a document; only numbers have [__round__]. *)
Definition py_round (x : json) : outcome Z :=
  match as_num x with
  | Some n => round_num n
  | None => Raise TypeError
  end.

(** [a > b] and [a < b].  Python also orders two strings and two lists, but
    the only use of these comparisons is inside [max] and [min] whose result
    goes to [round], and [round] raises [TypeError] on a string and on a list:
    the model raises the same exception at the comparison. *)
Definition py_lt (a b : json) : outcome bool :=
  match as_num a, as_num b with
  | Some x, Some y => Return (num_lt x y)
  | _, _ => Raise TypeError
  end.

Definition py_gt (a b : json) : outcome bool := py_lt b a.

(** One pass of the loop of [max]: an item replaces the current one only if it
    is strictly greater. *)
Definition max_step (maxitem item : json) : outcome json :=
  b <- py_gt item maxitem ;; Return (if b then item else maxitem).

Definition min_step (minitem item : json) : outcome json :=
  b <- py_lt item minitem ;; Return (if b then item else minitem).

(** [max(l)] *)
Definition py_max (l : list json) : outcome json :=
  match l with
  | [] => Raise ValueError
  | x :: t => for_each max_step t x
  end.

(** [min(l)] *)
Definition py_min (l : list json) : outcome json :=
  match l with
  | [] => Raise ValueError
  | x :: t => for_each min_step t x
  end.

(** [hash(x)] succeeds on everything a document holds but lists and objects. *)
Definition hashable (x : json) : bool :=
  match x with
  | JList _ | JDict _ => false
  | _ => true
  end.

(** Equality of two hashable values, as [set] and [list.count] decide it. *)
Definition py_eq (a b : json) : bool :=
  match a, b with
  | JNull, JNull => true
  | JStr s, JStr t => String.eqb s t
  | JList _, _ | _, JList _ | JDict _, _ | _, JDict _ => false
  | _, _ =>
      match as_num a, as_num b with
      | Some x, Some y => num_eq x y
      | _, _ => false
      end
  end.

(** [l.count(x)] *)
Definition count (l : list json) (x : json) : Z :=
  Z.of_nat (List.length (filter (fun y => py_eq y x) l)).

(** The distinct elements of [l], each at its first occurrence: what a set
    built from [l] holds. *)
Fixpoint distinct {A : Type} (eqb : A -> A -> bool) (l : list A) : list A :=
  match l with
  | [] => []
  | x :: t => x :: filter (fun y => negb (eqb y x)) (distinct eqb t)
  end.

(** [max(xs, key=key)] over the items [x :: t] in iteration order: an item
    replaces the current one only when its key is strictly greater. *)
Fixpoint max_by {A : Type} (key : A -> Z) (best : A) (t : list A) : A :=
  match t with
  | [] => best
  | x :: t' => if key best <? key x then max_by key x t' else max_by key best t'
  end.

(** ** What the program takes from its runtime *)

Class PyRuntime : Type := {
  (** the binary64 value nearest to a rational, an infinity when it is out of
      range: the rounding step of every float operation *)
  rnd : Q -> pyfloat;
  (** the order in which a [set] holding the given distinct elements is
      iterated; it follows the hashes of the elements *)
  set_iter : list json -> list json;
  (** [datetime.date] *)
  date : Type;
  (** [datetime.fromtimestamp(x).date()], in the local time zone *)
  fromtimestamp_date : num -> outcome date;
  (** [d.strftime(fmt)] *)
  strftime : date -> string -> string;
  (** [s.capitalize()] *)
  capitalize : string -> string;
  (** werkzeug's [generate_password_hash] and [check_password_hash] *)
  generate_password_hash : string -> string;
  check_password_hash : string -> string -> bool
}.

(** A set iterates over exactly the elements it holds. *)
Definition set_iter_ok (RT : PyRuntime) : Prop :=
  forall l : list json, Permutation (set_iter l) l.

(** A runtime to evaluate the definitions with: exact arithmetic, sets iterated
    in insertion order, dates as days since the epoch in UTC. *)
Definition reference_runtime : PyRuntime := {|
  rnd := FFin;
  set_iter := fun l => l;
  date := Z;
  fromtimestamp_date := fun n =>
    match n with
    | NInt z => Return (z / 86400)
    | NFloat (FFin q) => Return (Qfloor q / 86400)
    | NFloat FNaN => Raise ValueError
    | NFloat _ => Raise OverflowError
    end;
  strftime := fun d fmt => NilZero.string_of_int (Z.to_int d) ++ " " ++ fmt;
  capitalize := fun s => s;
  generate_password_hash := fun p => "pbkdf2:" ++ p;
  check_password_hash := fun h p => String.eqb h ("pbkdf2:" ++ p)
|}.

(** The same runtime with sets iterated in reverse insertion order. *)
Definition reversed_runtime : PyRuntime := {|
  rnd := FFin;
  set_iter := fun l => rev l;
  date := Z;
  fromtimestamp_date := @fromtimestamp_date reference_runtime;
  strftime := @strftime reference_runtime;
  capitalize := fun s => s;
  generate_password_hash := @generate_password_hash reference_runtime;
  check_password_hash := @check_password_hash reference_runtime
|}.





Section Program.

Context {RT : PyRuntime}.

(** ** Float arithmetic *)

(** [float(z)] *)
Definition to_float (z : Z) : outcome pyfloat :=
  match rnd (inject_Z z) with
  | FFin q => Return (FFin q)
  | _ => Raise OverflowError
  end.

Definition float_add (a b : pyfloat) : pyfloat :=
  match a, b with
  | FNaN, _ | _, FNaN => FNaN
  | FPosInf, FNegInf | FNegInf, FPosInf => FNaN
  | FPosInf, _ | _, FPosInf => FPosInf
  | FNegInf, _ | _, FNegInf => FNegInf
  | FFin x, FFin y => rnd (x + y)
  end.

(** [a + b] *)
Definition py_add (a b : num) : outcome num :=
  match a, b with
  | NInt x, NInt y => Return (NInt (x + y))
  | NInt x, NFloat g => f <- to_float x ;; Return (NFloat (float_add f g))
  | NFloat f, NInt y => g <- to_float y ;; Return (NFloat (float_add f g))
  | NFloat f, NFloat g => Return (NFloat (float_add f g))
  end.

(** [sum(l)]: the items are added to the integer 0 from left to right.
    CPython 3.12 and later carry a compensation term along a sum of floats,
    which can change the last bit of the result; the runs of floats shown below
    give the same values with and without it. *)
Definition py_sum (l : list json) : outcome num :=
  for_each (fun acc x =>
              match as_num x with
              | Some n => py_add acc n
              | None => Raise TypeError
              end) l (NInt 0).

Definition float_div (a b : pyfloat) : outcome pyfloat :=
  match b with
  | FFin y =>
      if Qeq_bool y 0 then Raise ZeroDivisionError
      else match a with
           | FFin x => Return (rnd (x / y))
           | FPosInf => Return (if Qltb 0 y then FPosInf else FNegInf)
           | FNegInf => Return (if Qltb 0 y then FNegInf else FPosInf)
           | FNaN => Return FNaN
           end
  | FNaN => Return FNaN
  | _ => match a with
         | FFin _ => Return (FFin 0)
         | _ => Return FNaN
         end
  end.

(** [a / n] for an integer [n]: the quotient of two integers is rounded once. *)
Definition py_truediv (a : num) (n : Z) : outcome num :=
  match a with
  | NInt x =>
      if n =? 0 then Raise ZeroDivisionError
      else match rnd (inject_Z x / inject_Z n) with
           | FFin q => Return (NFloat (FFin q))
           | _ => Raise OverflowError
           end
  | NFloat f => g <- to_float n ;; q <- float_div f g ;; Return (NFloat q)
  end.

(** [sum(l) / len(l)] *)
Definition py_mean (l : list json) : outcome num :=
  s <- py_sum l ;; py_truediv s (Z.of_nat (List.length l)).

(** [round(x, 1)] *)
Definition py_round1 (n : num) : outcome num :=
  match n with
  | NInt z => Return (NInt z)
  | NFloat (FFin q) =>
      match rnd (inject_Z (round_half_even (q * 10)) / 10) with
      | FFin r => Return (NFloat (FFin r))
      | _ => Raise OverflowError
      end
  | NFloat f => Return (NFloat f)
  end.

(** ** The weather provider *)

Definition WEATHER_BASE_URL : string := "https://api.openweathermap.org/data/2.5".

(** What [requests.get] returns: the status code and the result of
    [response.json()]. *)
Record response : Type := {
  status_code : Z;
  response_json : outcome json
}.

(** [requests.get(url, params={'q': city, ...})] for one request of the
    application: the provider as the handler sees it. *)
Definition provider : Type := string -> string -> outcome response.

(** ** Weather functions *)

Record snapshot : Type := {
  cw_city : json;
  cw_country : json;
  cw_temperature : Z;
  cw_feels_like : Z;
  cw_description : string;
  cw_icon : json;
  cw_humidity : json;
  cw_pressure : json;
  cw_wind_speed : json;
  cw_timestamp : Z
}.

(** [x.capitalize()]: only strings have the method. *)
Definition py_capitalize (x : json) : outcome string :=
  match x with
  | JStr s => Return (capitalize s)
  | _ => Raise AttributeError
  end.

(** The [try] block of [get_current_weather]; [None] when it falls through. *)
Definition get_current_weather_try (requests_get : provider) (now : Z) (city : string)
  : outcome (option snapshot) :=
  response <- requests_get (WEATHER_BASE_URL ++ "/weather") city ;;
  if status_code response =? 200 then
    data <- response_json response ;;
    name <- getitem data "name" ;;
    country <- (sys <- getitem data "sys" ;; getitem sys "country") ;;
    temperature <- (main <- getitem data "main" ;; t <- getitem main "temp" ;; py_round t) ;;
    feels_like <- (main <- getitem data "main" ;; t <- getitem main "feels_like" ;; py_round t) ;;
    description <- (w <- getitem data "weather" ;; w0 <- getitem0 w ;;
                    d <- getitem w0 "description" ;; py_capitalize d) ;;
    icon <- (w <- getitem data "weather" ;; w0 <- getitem0 w ;; getitem w0 "icon") ;;
    humidity <- (main <- getitem data "main" ;; getitem main "humidity") ;;
    pressure <- (main <- getitem data "main" ;; getitem main "pressure") ;;
    wind_speed <- (wind <- getitem data "wind" ;; getitem wind "speed") ;;
    Return (Some {| cw_city := name;
                    cw_country := country;
                    cw_temperature := temperature;
                    cw_feels_like := feels_like;
                    cw_description := description;
                    cw_icon := icon;
                    cw_humidity := humidity;
                    cw_pressure := pressure;
                    cw_wind_speed := wind_speed;
                    cw_timestamp := now |})
  else Return None.

(** [get_current_weather(city)]: the handler prints the exception and the
    function returns [None]. *)
Definition get_current_weather (requests_get : provider) (now : Z) (city : string)
  : outcome (option snapshot) :=
  try_except (get_current_weather_try requests_get now city)
             (fun e => Return None).

(** The value stored per day while the samples are read. *)
Record day_data : Type := {
  dd_date : string;
  dd_temps : list json;
  dd_descriptions : list json;
  dd_humidity : list json;
  dd_wind : list json;
  dd_icon : json
}.

(** [daily_forecast]: a dict keeps its keys in insertion order. *)
Definition daily : Type := list (string * day_data).

Definition has_key (k : string) (d : daily) : bool :=
  existsb (fun p => String.eqb k (fst p)) d.

(** [d[k] = f(d[k])] for a key that is present *)
Definition update (k : string) (f : day_data -> day_data) (d : daily) : daily :=
  map (fun p => if String.eqb k (fst p) then (fst p, f (snd p)) else p) d.

Definition append_sample (temp description humidity wind : json) (x : day_data) : day_data :=
  {| dd_date := dd_date x;
     dd_temps := (dd_temps x ++ [temp])%list;
     dd_descriptions := (dd_descriptions x ++ [description])%list;
     dd_humidity := (dd_humidity x ++ [humidity])%list;
     dd_wind := (dd_wind x ++ [wind])%list;
     dd_icon := dd_icon x |}.

(** [datetime.fromtimestamp(item['dt']).date()] *)
Definition item_date (item : json) : outcome date :=
  dt <- getitem item "dt" ;;
  match as_num dt with
  | Some n => fromtimestamp_date n
  | None => Raise TypeError
  end.

(** [item['main']['temp']] and the other fields read from a sample *)
Definition item_temp (item : json) : outcome json :=
  main <- getitem item "main" ;; getitem main "temp".

Definition item_description (item : json) : outcome json :=
  w <- getitem item "weather" ;; w0 <- getitem0 w ;; getitem w0 "description".

Definition item_humidity (item : json) : outcome json :=
  main <- getitem item "main" ;; getitem main "humidity".

Definition item_wind (item : json) : outcome json :=
  w <- getitem item "wind" ;; getitem w "speed".

Definition item_icon (item : json) : outcome json :=
  w <- getitem item "weather" ;; w0 <- getitem0 w ;; getitem w0 "icon".

Definition new_day (d : date) (icon : json) : day_data :=
  {| dd_date := strftime d "%A, %B %d";
     dd_temps := [];
     dd_descriptions := [];
     dd_humidity := [];
     dd_wind := [];
     dd_icon := icon |}.

(** One pass of the loop over [data['list']]. *)
Definition forecast_step (daily_forecast : daily) (item : json) : outcome daily :=
  d <- item_date item ;;
  let date_str := strftime d "%Y-%m-%d" in
  daily_forecast <-
    (if has_key date_str daily_forecast then Return daily_forecast
     else icon <- item_icon item ;;
          Return (daily_forecast ++ [(date_str, new_day d icon)])%list) ;;
  temp <- item_temp item ;;
  description <- item_description item ;;
  humidity <- item_humidity item ;;
  wind <- item_wind item ;;
  Return (update date_str (append_sample temp description humidity wind) daily_forecast).

(** An entry of [forecast_list]. *)
Record summary : Type := {
  sm_date : string;
  sm_temp_max : Z;
  sm_temp_min : Z;
  sm_description : json;
  sm_humidity : Z;
  sm_wind_speed : num;
  sm_icon : json
}.

(** [max(set(l), key=l.count)] *)
Definition most_common (l : list json) : outcome json :=
  if forallb hashable l then
    match set_iter (distinct py_eq l) with
    | [] => Raise ValueError
    | x :: t => Return (max_by (count l) x t)
    end
  else Raise TypeError.

(** The dict appended to [forecast_list] for one day. *)
Definition summarise (day : day_data) : outcome summary :=
  temp_max <- (m <- py_max (dd_temps day) ;; py_round m) ;;
  temp_min <- (m <- py_min (dd_temps day) ;; py_round m) ;;
  description <- most_common (dd_descriptions day) ;;
  humidity <- (m <- py_mean (dd_humidity day) ;; round_num m) ;;
  wind_speed <- (m <- py_mean (dd_wind day) ;; py_round1 m) ;;
  Return {| sm_date := dd_date day;
            sm_temp_max := temp_max;
            sm_temp_min := temp_min;
            sm_description := description;
            sm_humidity := humidity;
            sm_wind_speed := wind_speed;
            sm_icon := dd_icon day |}.

(** The second loop: [for date_str, day_data in list(daily_forecast.items())[:7]]. *)
Definition summaries (daily_forecast : daily) : outcome (list summary) :=
  for_each (fun forecast_list p =>
              s <- summarise (snd p) ;; Return (forecast_list ++ [s])%list)
           (firstn 7 daily_forecast) [].

(** The forecast aggregator: both loops, on the items of [data['list']]. *)
Definition aggregate (items : list json) : outcome (list summary) :=
  daily_forecast <- for_each forecast_step items [] ;;
  summaries daily_forecast.

(** The [try] block of [get_weekly_forecast]; [None] when it falls through. *)
Definition get_weekly_forecast_try (requests_get : provider) (city : string)
  : outcome (option (list summary)) :=
  response <- requests_get (WEATHER_BASE_URL ++ "/forecast") city ;;
  if status_code response =? 200 then
    data <- response_json response ;;
    l <- getitem data "list" ;;
    items <- iterate l ;;
    forecast_list <- aggregate items ;;
    Return (Some forecast_list)
  else Return None.

(** [get_weekly_forecast(city)]: on an exception, and when the status is not
    200, the function returns the empty list. *)
Definition get_weekly_forecast (requests_get : provider) (city : string)
  : outcome (list summary) :=
  r <- try_except (get_weekly_forecast_try requests_get city) (fun e => Return None) ;;
  match r with
  | Some forecast_list => Return forecast_list
  | None => Return []
  end.

(** ** The persistent store, sessions and requests *)

(** A Mongo [ObjectId]; [str] and [ObjectId] convert it to and from the text
    the session holds. *)
Definition ObjectId : Type := Z.

Record preferences : Type := {
  units : string;
  notifications : bool
}.

(** A document of the [users] collection.  A form field that is absent is
    stored as null. *)
Record user : Type := {
  u_id : ObjectId;
  u_username : option string;
  u_email : option string;
  u_password : string;
  u_city : option string;
  u_created_at : Z;
  u_preferences : preferences
}.

Record login_event : Type := {
  le_user_id : ObjectId;
  le_login_time : Z;
  le_ip_address : string
}.

Record weather_query : Type := {
  wq_user_id : ObjectId;
  wq_city : string;
  wq_query_time : Z;
  wq_weather_data : snapshot;
  wq_forecast : list summary
}.

(** [mongo.db]: three collections, each in insertion order. *)
Record db : Type := {
  users : list user;
  login_history : list login_event;
  weather_queries : list weather_query
}.

(** The Flask session; [flash] stores its messages in it. *)
Record session : Type := {
  ss_user_id : option ObjectId;
  ss_username : option (option string);
  ss_city : option string;
  ss_flashes : list (string * string)
}.

Definition empty_session : session :=
  {| ss_user_id := None; ss_username := None; ss_city := None; ss_flashes := [] |}.

Record request : Type := {
  method : string;
  form : list (string * string);
  remote_addr : string
}.

(** What a request meets outside the store: the clock, the identifier the
    store gives to the next inserted document, and the weather provider. *)
Record environment : Type := {
  now : Z;
  new_id : ObjectId;
  requests_get : provider
}.

Inductive http_response : Type :=
| Redirect (endpoint : string)
| RenderTemplate (name : string)
| RenderDashboard (u : user) (current_weather : option snapshot) (forecast : list summary)
| Jsonify (current : option snapshot) (forecast : list summary).

(** A view: from the store and the session to the new store, the new session
    and the response; an exception that leaves the view is a server error. *)
Definition view : Type := db -> session -> outcome (db * session * http_response).

Definition flash (message category : string) (s : session) : session :=
  {| ss_user_id := ss_user_id s;
     ss_username := ss_username s;
     ss_city := ss_city s;
     ss_flashes := (ss_flashes s ++ [(message, category)])%list |}.

(** [request.form.get(k)] and [request.form.get(k, default)] *)
Definition form_get (r : request) (k : string) : option string := lookup k (form r).

Definition form_get_default (r : request) (k default : string) : string :=
  match lookup k (form r) with
  | Some v => v
  | None => default
  end.

(** Truth value of a string or [None] *)
Definition truthy (x : option string) : bool :=
  match x with
  | Some (String _ _) => true
  | _ => false
  end.

Definition option_eqb (a b : option string) : bool :=
  match a, b with
  | Some x, Some y => String.eqb x y
  | None, None => true
  | _, _ => false
  end.

(** [users.find_one({'_id': id})] *)
Definition find_user (id : ObjectId) (d : db) : option user :=
  find (fun u => u_id u =? id) (users d).

(** [users.update_one({'_id': id}, {'$set': ...})]: the first document with
    that identifier is changed, none is added. *)
Fixpoint update_one (id : ObjectId) (f : user -> user) (l : list user) : list user :=
  match l with
  | [] => []
  | u :: t => if u_id u =? id then f u :: t else u :: update_one id f t
  end.

Definition with_users (d : db) (l : list user) : db :=
  {| users := l; login_history := login_history d; weather_queries := weather_queries d |}.

(** [user.get('city', 'London')] *)
Definition user_city (u : user) : string :=
  match u_city u with
  | Some c => c
  | None => "London"
  end.

(** ** Authentication *)

Definition login_required (f : view) : view :=
  fun d s =>
    match ss_user_id s with
    | None => Return (d, flash "Please login to access this page" "warning" s, Redirect "login")
    | Some _ => f d s
    end.

(** [session['user_id']] *)
Definition session_user_id (s : session) : outcome ObjectId :=
  match ss_user_id s with
  | Some id => Return id
  | None => Raise KeyError
  end.

Definition register (env : environment) (r : request) : view :=
  fun d s =>
    if String.eqb (method r) "POST" then
      let username := form_get r "username" in
      let email := form_get r "email" in
      let password := form_get r "password" in
      let city := form_get_default r "city" "Your city" in
      let existing_user :=
        find (fun u => option_eqb (u_username u) username || option_eqb (u_email u) email)
             (users d) in
      match existing_user with
      | Some _ =>
          Return (d, flash "Username or email already exists" "danger" s, Redirect "register")
      | None =>
          hashed_password <- match password with
                             | Some p => Return (generate_password_hash p)
                             | None => Raise AttributeError
                             end ;;
          let user_data := {| u_id := new_id env;
                              u_username := username;
                              u_email := email;
                              u_password := hashed_password;
                              u_city := Some city;
                              u_created_at := now env;
                              u_preferences := {| units := "metric"; notifications := true |} |} in
          Return (with_users d (users d ++ [user_data])%list,
                  flash "Registration successful! Please login." "success" s,
                  Redirect "login")
      end
    else Return (d, s, RenderTemplate "register.html").

Definition login (env : environment) (r : request) : view :=
  fun d s =>
    if String.eqb (method r) "POST" then
      let username := form_get r "username" in
      let password := form_get r "password" in
      let found := find (fun u => option_eqb (u_username u) username) (users d) in
      ok <- match found, password with
            | Some u, Some p => Return (check_password_hash (u_password u) p)
            | Some u, None => Raise AttributeError
            | None, _ => Return false
            end ;;
      match found with
      | Some u =>
          if ok then
            let s1 := {| ss_user_id := Some (u_id u);
                         ss_username := Some (u_username u);
                         ss_city := Some (user_city u);
                         ss_flashes := ss_flashes s |} in
            let d1 := {| users := users d;
                         login_history := (login_history d ++
                                             [{| le_user_id := u_id u;
                                                 le_login_time := now env;
                                                 le_ip_address := remote_addr r |}])%list;
                         weather_queries := weather_queries d |} in
            Return (d1, flash "Login successful!" "success" s1, Redirect "dashboard")
          else Return (d, flash "Invalid username or password" "danger" s,
                       RenderTemplate "login.html")
      | None => Return (d, flash "Invalid username or password" "danger" s,
                        RenderTemplate "login.html")
      end
    else Return (d, s, RenderTemplate "login.html").

Definition logout : view :=
  fun d s => Return (d, flash "You have been logged out" "info" empty_session, Redirect "index").

(** ** Dashboard *)

Definition dashboard_view (env : environment) : view :=
  fun d s =>
    id <- session_user_id s ;;
    match find_user id d with
    | None => Raise AttributeError
    | Some u =>
        let city := user_city u in
        current_weather <- get_current_weather (requests_get env) (now env) city ;;
        forecast <- get_weekly_forecast (requests_get env) city ;;
        let d1 :=
          match current_weather with
          | Some cw =>
              {| users := users d;
                 login_history := login_history d;
                 weather_queries := (weather_queries d ++
                                       [{| wq_user_id := id;
                                           wq_city := city;
                                           wq_query_time := now env;
                                           wq_weather_data := cw;
                                           wq_forecast := forecast |}])%list |}
          | None => d
          end in
        Return (d1, s, RenderDashboard u current_weather forecast)
    end.

Definition dashboard (env : environment) : view := login_required (dashboard_view env).

Definition with_city (c : string) (u : user) : user :=
  {| u_id := u_id u;
     u_username := u_username u;
     u_email := u_email u;
     u_password := u_password u;
     u_city := Some c;
     u_created_at := u_created_at u;
     u_preferences := u_preferences u |}.

Definition update_city_view (r : request) : view :=
  fun d s =>
    let city := form_get r "city" in
    if truthy city then
      match city with
      | Some c =>
          id <- session_user_id s ;;
          let d1 := with_users d (update_one id (with_city c) (users d)) in
          let s1 := {| ss_user_id := ss_user_id s;
                       ss_username := ss_username s;
                       ss_city := Some c;
                       ss_flashes := ss_flashes s |} in
          Return (d1, flash ("City updated to " ++ c) "success" s1, Redirect "dashboard")
      | None => Return (d, s, Redirect "dashboard")
      end
    else Return (d, s, Redirect "dashboard").

Definition update_city (r : request) : view := login_required (update_city_view r).

Definition api_weather_view (env : environment) (city : string) : view :=
  fun d s =>
    current_weather <- get_current_weather (requests_get env) (now env) city ;;
    forecast <- get_weekly_forecast (requests_get env) city ;;
    Return (d, s, Jsonify current_weather forecast).

Definition api_weather (env : environment) (city : string) : view :=
  login_required (api_weather_view env city).

(** ** Profile *)

Definition with_preferences (p : preferences) (u : user) : user :=
  {| u_id := u_id u;
     u_username := u_username u;
     u_email := u_email u;
     u_password := u_password u;
     u_city := u_city u;
     u_created_at := u_created_at u;
     u_preferences := p |}.

Definition update_preferences_view (r : request) : view :=
  fun d s =>
    let units := form_get_default r "units" "metric" in
    let notifications := option_eqb (form_get r "notifications") (Some "on") in
    id <- session_user_id s ;;
    let d1 := with_users d (update_one id
                              (with_preferences {| units := units;
                                                   notifications := notifications |})
                              (users d)) in
    Return (d1, flash "Preferences updated successfully" "success" s, Redirect "profile").

Definition update_preferences (r : request) : view :=
  login_required (update_preferences_view r).

(** ** The vocabulary of the properties *)

(** The ISO date of a sample, the key under which the first loop files it,
    and the label shown for its day. *)
Definition item_key (item : json) : string :=
  match item_date item with
  | Return d => strftime d "%Y-%m-%d"
  | Raise _ => ""
  end.

Definition item_label (item : json) : string :=
  match item_date item with
  | Return d => strftime d "%A, %B %d"
  | Raise _ => ""
  end.

Definition value (o : outcome json) : json :=
  match o with
  | Return v => v
  | Raise _ => JNull
  end.

(** The distinct dates of the samples, in the order they are first met. *)
Definition dates (items : list json) : list string :=
  distinct String.eqb (map item_key items).

(** The samples of one date, in input order. *)
Definition group (k : string) (items : list json) : list json :=
  filter (fun item => String.eqb k (item_key item)) items.

(** The data of one date: the values of its samples in input order, the label
    and the icon of its first sample. *)
Definition day_of (items : list json) (k : string) : day_data :=
  let g := group k items in
  {| dd_date := match g with x :: _ => item_label x | [] => "" end;
     dd_temps := map (fun i => value (item_temp i)) g;
     dd_descriptions := map (fun i => value (item_description i)) g;
     dd_humidity := map (fun i => value (item_humidity i)) g;
     dd_wind := map (fun i => value (item_wind i)) g;
     dd_icon := match g with x :: _ => value (item_icon x) | [] => JNull end |}.

(** The most frequent value of [l], the one met first among those of equal
    count: the tie-break the specification names. *)
Definition earliest_mode (l : list json) : json :=
  match distinct py_eq l with
  | [] => JNull
  | x :: t => max_by (count l) x t
  end.

(** The current-weather fetch fails: the provider answers with a status other
    than 200, or an exception is raised inside the [try] block (the network,
    the decoding of the body, a missing or ill-typed field). *)
Definition fetch_fails (requests_get : provider) (now : Z) (city : string) : Prop :=
  (exists r, requests_get (WEATHER_BASE_URL ++ "/weather") city = Return r /\
             status_code r <> 200) \/
  (exists e, get_current_weather_try requests_get now city = Raise e).

(** A finite number, and a number of magnitude at most [2 ^ j]. *)
Definition finite_num (n : num) : Prop :=
  exists q, float_of_num n = FFin q.

Definition bounded (j : Z) (n : num) : Prop :=
  exists q, float_of_num n = FFin q /\ (Qabs q <= inject_Z (2 ^ j))%Q.

(** Values of a document that are finite numbers, numbers of magnitude at
    most [2 ^ k], strings. *)
Definition finite_number (x : json) : Prop :=
  exists n, x = JNum n /\ finite_num n.

Definition number_within (k : Z) (x : json) : Prop :=
  exists n, x = JNum n /\ bounded k n.

Definition is_string (x : json) : Prop :=
  exists s, x = JStr s.

(** Two facts of binary64 rounding to nearest: the powers of two up to
    [2 ^ 1023] are floats and rounding is monotone, so a value between
    [- 2 ^ j] and [2 ^ j] rounds to a float between them, and a value that is
    at least 1 rounds to a float that is at least 1. *)
Definition rnd_faithful : Prop :=
  (forall (q : Q) (j : Z), 0 <= j <= 1023 -> (Qabs q <= inject_Z (2 ^ j))%Q ->
     exists r, rnd q = FFin r /\ (Qabs r <= inject_Z (2 ^ j))%Q) /\
  (forall q r : Q, (1 <= q)%Q -> rnd q = FFin r -> (1 <= r)%Q).

(** A sample as the provider documents it: a timestamp the clock can convert,
    an icon, a finite temperature, a description that is a string, a humidity
    and a wind speed of magnitude at most [2 ^ k]. *)
Definition well_formed (k : Z) (item : json) : Prop :=
  (exists d, item_date item = Return d) /\
  (exists icon, item_icon item = Return icon) /\
  (exists t, item_temp item = Return (JNum t) /\ finite_num t) /\
  (exists s, item_description item = Return (JStr s)) /\
  (exists h, item_humidity item = Return (JNum h) /\ bounded k h) /\
  (exists w, item_wind item = Return (JNum w) /\ bounded k w).




(** [d] is a most frequent value of [l]. *)
Definition most_frequent (l : list json) (d : json) : Prop :=
  In d l /\ forall x, In x l -> count l x <= count l d.

(** Among the values of [l], [d] is the first one of its count that the
    iteration over the set of [l] meets. *)
Definition first_in_set_order (l : list json) (d : json) : Prop :=
  exists pre post,
    set_iter (distinct py_eq l) = (pre ++ d :: post)%list /\
    forall x, In x pre -> count l x < count l d.

(** ** The remaining views *)

Definition index : view :=
  fun d s =>
    match ss_user_id s with
    | Some _ => Return (d, s, Redirect "dashboard")
    | None => Return (d, s, RenderTemplate "index.html")
    end.

(** What a view answers with when its template is given data: the responses
    above, the history page with its records, the profile page with the user
    document (or [None]) and the number of queries. *)
Inductive page : Type :=
| Response (r : http_response)
| HistoryPage (history : list weather_query)
| ProfilePage (u : option user) (query_count : Z).

Definition page_view : Type := db -> session -> outcome (db * session * page).

(** A view of the first kind as a view of the second. *)
Definition as_page (v : view) : page_view :=
  fun d s =>
    r <- v d s ;;
    Return (fst (fst r), snd (fst r), Response (snd r)).

(** [login_required] on a view that renders data. *)
Definition login_required_page (f : page_view) : page_view :=
  fun d s =>
    match ss_user_id s with
    | None => Return (d, flash "Please login to access this page" "warning" s,
                      Response (Redirect "login"))
    | Some _ => f d s
    end.

(** [weather_queries.find({'user_id': id})], in insertion order *)
Definition find_queries (id : ObjectId) (d : db) : list weather_query :=
  filter (fun q => wq_user_id q =? id) (weather_queries d).

(** [.sort('query_time', -1)]: a record is placed before the first one that is
    strictly older.  Records of equal time stay in insertion order; the store
    leaves their order open. *)
Fixpoint insert_newest_first (q : weather_query) (l : list weather_query)
  : list weather_query :=
  match l with
  | [] => [q]
  | x :: t =>
      if wq_query_time x <? wq_query_time q then q :: x :: t
      else x :: insert_newest_first q t
  end.

Definition sort_newest_first (l : list weather_query) : list weather_query :=
  fold_left (fun sorted q => insert_newest_first q sorted) l [].

Definition weather_history_view : page_view :=
  fun d s =>
    id <- session_user_id s ;;
    let history := firstn 20 (sort_newest_first (find_queries id d)) in
    Return (d, s, HistoryPage history).

Definition weather_history : page_view := login_required_page weather_history_view.

Definition profile_view : page_view :=
  fun d s =>
    id <- session_user_id s ;;
    let user := find_user id d in
    let query_count := Z.of_nat (List.length (find_queries id d)) in
    Return (d, s, ProfilePage user query_count).

Definition profile : page_view := login_required_page profile_view.

(** ** Routing *)

(** The endpoints of the application: the names [url_for] resolves. *)
Inductive endpoint : Type :=
| Index
| Register
| Login
| Logout
| Dashboard
| UpdateCity
| WeatherHistory
| ApiWeather (city : string)
| Profile
| UpdatePreferences.

(** The view function a request is handed to once its route has matched. *)
Definition dispatch (env : environment) (e : endpoint) (r : request) : page_view :=
  match e with
  | Index => as_page index
  | Register => as_page (register env r)
  | Login => as_page (login env r)
  | Logout => as_page logout
  | Dashboard => as_page (dashboard env)
  | UpdateCity => as_page (update_city r)
  | WeatherHistory => weather_history
  | ApiWeather city => as_page (api_weather env city)
  | Profile => profile
  | UpdatePreferences => as_page (update_preferences r)
  end.

(** The endpoints decorated with [@login_required]. *)
Definition protected (e : endpoint) : bool :=
  match e with
  | Dashboard | UpdateCity | WeatherHistory | ApiWeather _ | Profile | UpdatePreferences => true
  | _ => false
  end.

(** [url_for(name)] for the names the views redirect to; [api_weather] needs a
    city and has no URL without one. *)
Definition endpoint_named (name : string) : option endpoint :=
  if String.eqb name "index" then Some Index
  else if String.eqb name "register" then Some Register
  else if String.eqb name "login" then Some Login
  else if String.eqb name "logout" then Some Logout
  else if String.eqb name "dashboard" then Some Dashboard
  else if String.eqb name "update_city" then Some UpdateCity
  else if String.eqb name "weather_history" then Some WeatherHistory
  else if String.eqb name "profile" then Some Profile
  else if String.eqb name "update_preferences" then Some UpdatePreferences
  else None.

(** The request a browser sends when it follows a redirect. *)
Definition get_request (addr : string) : request :=
  {| method := "GET"; form := []; remote_addr := addr |}.

(** ** The vocabulary of the further properties *)

(** The ways in which a request changes the store: not at all, by one more
    user whose name and email no stored user has, by one more login event or
    one more weather query of a stored user, or by rewriting fields other than
    the identifier, the name, the email and the password of the users with
    one identifier. *)
Inductive store_step (d : db) : db -> Prop :=
| step_none : store_step d d
| step_register (u : user) :
    (forall v, In v (users d) ->
               u_username v <> u_username u /\ u_email v <> u_email u) ->
    store_step d (with_users d (users d ++ [u]))
| step_login (ev : login_event) :
    (exists u, In u (users d) /\ u_id u = le_user_id ev) ->
    store_step d {| users := users d;
                    login_history := (login_history d ++ [ev])%list;
                    weather_queries := weather_queries d |}
| step_query (q : weather_query) :
    (exists u, In u (users d) /\ u_id u = wq_user_id q) ->
    store_step d {| users := users d;
                    login_history := login_history d;
                    weather_queries := (weather_queries d ++ [q])%list |}
| step_update (id : ObjectId) (f : user -> user) :
    (forall u, u_id (f u) = u_id u /\ u_username (f u) = u_username u /\
               u_email (f u) = u_email u /\ u_password (f u) = u_password u) ->
    store_step d (with_users d (update_one id f (users d))).

(** Every weather query and every login event belongs to a stored user. *)
Definition references_users (d : db) : Prop :=
  (forall q, In q (weather_queries d) -> exists u, In u (users d) /\ u_id u = wq_user_id q) /\
  (forall ev, In ev (login_history d) -> exists u, In u (users d) /\ u_id u = le_user_id ev).

(** No two stored users share a name, and no two share an email. *)
Definition unique_users (d : db) : Prop :=
  NoDup (map u_username (users d)) /\ NoDup (map u_email (users d)).


(** A stored hash is accepted for the password it was made from. *)
Definition hash_round_trip : Prop :=
  forall p : string, check_password_hash (generate_password_hash p) p = true.

(** A sample one of whose fields the first loop cannot read. *)
Definition unreadable (item : json) : Prop :=
  (exists e, item_date item = Raise e) \/
  (exists e, item_temp item = Raise e) \/
  (exists e, item_description item = Raise e) \/
  (exists e, item_humidity item = Raise e) \/
  (exists e, item_wind item = Raise e).

End Program.

(** ** Provider documents *)

(** A forecast sample as the provider writes it. *)
Definition sample (dt : Z) (temp : num) (description : string) (humidity speed : num)
  (icon : string) : json :=
  JDict [("dt", JNum (NInt dt));
         ("main", JDict [("temp", JNum temp); ("humidity", JNum humidity)]);
         ("weather", JList [JDict [("description", JStr description); ("icon", JStr icon)]]);
         ("wind", JDict [("speed", JNum speed)])].

(** A current-conditions document. *)
Definition current_document (name country : string) (temp feels_like : num)
  (description icon : string) (humidity pressure : Z) (speed : num) : json :=
  JDict [("name", JStr name);
         ("sys", JDict [("country", JStr country)]);
         ("main", JDict [("temp", JNum temp); ("feels_like", JNum feels_like);
                         ("humidity", JNum (NInt humidity));
                         ("pressure", JNum (NInt pressure))]);
         ("weather", JList [JDict [("description", JStr description); ("icon", JStr icon)]]);
         ("wind", JDict [("speed", JNum speed)])].

Definition ok_response (body : json) : response :=
  {| status_code := 200; response_json := Return body |}.

(** Four samples of one day whose two descriptions occur twice each. *)
Definition tie_items : list json :=
  [sample 0 (NFloat (FFin (21 # 2))) "cloudy" (NInt 60) (NFloat (FFin (3 # 1))) "03d";
   sample 10800 (NFloat (FFin (12 # 1))) "cloudy" (NInt 62) (NFloat (FFin (7 # 2))) "03d";
   sample 21600 (NFloat (FFin (27 # 2))) "rain" (NInt 80) (NFloat (FFin (4 # 1))) "10d";
   sample 32400 (NFloat (FFin (11 # 1))) "rain" (NInt 85) (NFloat (FFin (9 # 2))) "10d"].


(** The scenario of the specification: two samples on one day, one on the next. *)
Definition two_days : list json :=
  [sample 0 (NInt 10) "clear sky" (NInt 50) (NFloat (FFin (2 # 1))) "01d";
   sample 10800 (NInt 15) "clear sky" (NInt 40) (NFloat (FFin (3 # 1))) "01d";
   sample 86400 (NInt 5) "snow" (NInt 90) (NFloat (FFin (1 # 1))) "13d"].

(** A provider that knows the city, and one that answers 404. *)
Definition fair_provider : provider :=
  fun url city =>
    if String.eqb url (WEATHER_BASE_URL ++ "/weather")
    then Return (ok_response
                   (current_document city "IN" (NFloat (FFin (57 # 2))) (NFloat (FFin (61 # 2)))
                                     "scattered clouds" "03d" 55 1009 (NFloat (FFin (18 # 5)))))
    else Return (ok_response (JDict [("cod", JStr "200"); ("list", JList two_days)])).

Definition not_found_provider : provider :=
  fun url city =>
    Return {| status_code := 404;
              response_json := Return (JDict [("cod", JStr "404");
                                              ("message", JStr "city not found")]) |}.

Definition env_with (p : provider) : environment :=
  {| now := 1700000000; new_id := 2; requests_get := p |}.

(** A store with one registered user, and that user's session. *)
Definition alice : user :=
  {| u_id := 1;
     u_username := Some "alice";
     u_email := Some "alice@example.org";
     u_password := "pbkdf2:secret";
     u_city := Some "Pune";
     u_created_at := 1600000000;
     u_preferences := {| units := "metric"; notifications := true |} |}.

Definition db0 : db := {| users := [alice]; login_history := []; weather_queries := [] |}.

Definition alice_session : session :=
  {| ss_user_id := Some 1;
     ss_username := Some (Some "alice");
     ss_city := Some "Pune";
     ss_flashes := [] |}.

Definition post (fields : list (string * string)) : request :=
  {| method := "POST"; form := fields; remote_addr := "127.0.0.1" |}.

(** The store after one dashboard view of alice at the fair provider. *)
Definition db1 : db :=
  match @dashboard reference_runtime (env_with fair_provider) db0 alice_session with
  | Return (d, _, _) => d
  | Raise _ => db0
  end.

(** A forecast document one of whose samples has no timestamp. *)
Definition broken_provider : provider :=
  fun url city =>
    Return (ok_response
              (JDict [("list", JList (two_days ++
                                        [JDict [("main", JDict [("temp", JNum (NInt 3))])]]))])).

(** The order of the extended reals on floats; NaN is not related to anything. *)
Definition fle (a b : pyfloat) : Prop :=
  match a, b with
  | FNaN, _ | _, FNaN => False
  | FNegInf, _ => True
  | _, FPosInf => True
  | FFin x, FFin y => (x <= y)%Q
  | _, _ => False
  end.

(** * Properties *)

(** ** Outcomes *)

Lemma bind_Return {A B : Type} (c : outcome A) (k : A -> outcome B) (b : B) :
  bind c k = Return b -> exists a, c = Return a /\ k a = Return b.
Proof.
  destruct c as [a | e]; simpl; intro H.
  - exists a; split; [reflexivity | exact H].
  - discriminate H.
Qed.

(** Splits a hypothesis [x <- c ;; k = Return b] into its two steps. *)
Ltac bind_inv H :=
  let a := fresh "a" in
  let Ha := fresh "Ha" in
  apply bind_Return in H; destruct H as [a [Ha H]].

Lemma for_each_app {S A : Type} (step : S -> A -> outcome S) (l1 l2 : list A) (s : S) :
  for_each step (l1 ++ l2) s = (s' <- for_each step l1 s ;; for_each step l2 s').
Proof.
  revert s; induction l1 as [| x t IH]; intro s; simpl.
  - reflexivity.
  - destruct (step s x) as [s' | e]; simpl; [apply IH | reflexivity].
Qed.

(** ** Rounding *)

Lemma Qltb_true (x y : Q) : Qltb x y = true <-> (x < y)%Q.
Proof.
  unfold Qltb; rewrite Qlt_alt.
  destruct (x ?= y)%Q; split; intro H; congruence.
Qed.

Lemma Qltb_false (x y : Q) : Qltb x y = false <-> (y <= x)%Q.
Proof.
  split; intro H.
  - apply Qnot_lt_le; intro L; apply Qltb_true in L; congruence.
  - destruct (Qltb x y) eqn:E; [| reflexivity].
    apply Qltb_true in E; exfalso; exact (Qle_not_lt _ _ H E).
Qed.

Lemma round_half_even_bounds (q : Q) :
  Qfloor q <= round_half_even q <= Qfloor q + 1.
Proof.
  unfold round_half_even.
  destruct (q - inject_Z (Qfloor q) ?= 1 # 2)%Q; [destruct (Z.even (Qfloor q)) | |]; lia.
Qed.

Lemma round_half_even_mono (x y : Q) :
  (x <= y)%Q -> round_half_even x <= round_half_even y.
Proof.
  intro Hxy.
  assert (Hf : Qfloor x <= Qfloor y) by (apply Qfloor_resp_le; exact Hxy).
  destruct (Z.eq_dec (Qfloor x) (Qfloor y)) as [E | N].
  - unfold round_half_even; rewrite <- E.
    set (f := Qfloor x).
    destruct (x - inject_Z f ?= 1 # 2)%Q eqn:Cx;
      destruct (y - inject_Z f ?= 1 # 2)%Q eqn:Cy;
      try (destruct (Z.even f)); try lia; exfalso;
      try (apply Qeq_alt in Cx); try (rewrite <- Qgt_alt in Cx); try (rewrite <- Qlt_alt in Cx);
      try (apply Qeq_alt in Cy); try (rewrite <- Qgt_alt in Cy); try (rewrite <- Qlt_alt in Cy);
      lra.
  - pose proof (round_half_even_bounds x); pose proof (round_half_even_bounds y); lia.
Qed.

Lemma round_half_even_int (z : Z) : round_half_even (inject_Z z) = z.
Proof.
  unfold round_half_even; rewrite Qfloor_Z.
  replace (inject_Z z - inject_Z z ?= 1 # 2)%Q with Lt; [reflexivity |].
  symmetry; apply Qlt_alt.
  unfold Qminus; rewrite Qplus_opp_r; reflexivity.
Qed.

Lemma round_num_value (n : num) (r : Z) :
  round_num n = Return r ->
  exists q, float_of_num n = FFin q /\ r = round_half_even q.
Proof.
  destruct n as [z | [q | | |]]; simpl; intro H; try discriminate H.
  - exists (inject_Z z); split; [reflexivity |].
    rewrite round_half_even_int; congruence.
  - exists q; split; [reflexivity | congruence].
Qed.

(** ** The order of floats *)

Lemma float_lt_fle (a b : pyfloat) : float_lt a b = true -> fle a b.
Proof.
  destruct a as [x | | |], b as [y | | |]; simpl; intro H; try discriminate H; auto.
  apply Qltb_true in H; apply Qlt_le_weak; exact H.
Qed.

Lemma float_nlt_fle (a b : pyfloat) :
  float_lt a b = false -> a <> FNaN -> b <> FNaN -> fle b a.
Proof.
  destruct a as [x | | |], b as [y | | |]; simpl; intros H Ha Hb;
    try discriminate H; try congruence; auto.
  apply Qltb_false in H; exact H.
Qed.

Lemma fle_trans (a b c : pyfloat) : fle a b -> fle b c -> fle a c.
Proof.
  destruct a as [x | | |], b as [y | | |], c as [z | | |]; simpl; intros H1 H2;
    try contradiction; auto.
  apply Qle_trans with y; assumption.
Qed.

Lemma fle_refl (a : pyfloat) : a <> FNaN -> fle a a.
Proof.
  destruct a as [x | | |]; simpl; intro H; try (apply Qle_refl); try congruence; auto.
Qed.

Lemma fle_not_nan_l (a b : pyfloat) : fle a b -> a <> FNaN.
Proof. destruct a, b; simpl; intros H E; try discriminate E; contradiction. Qed.

Lemma fle_not_nan_r (a b : pyfloat) : fle a b -> b <> FNaN.
Proof. destruct a, b; simpl; intros H E; try discriminate E; contradiction. Qed.

(** ** [max] and [min] *)

Lemma max_loop_le (t : list json) : forall (m0 m : json) (a0 : num),
  for_each max_step t m0 = Return m ->
  as_num m0 = Some a0 -> float_of_num a0 <> FNaN ->
  exists a, as_num m = Some a /\ fle (float_of_num a0) (float_of_num a).
Proof.
  induction t as [| item t IH]; simpl; intros m0 m a0 H H0 Hn.
  - injection H as <-. exists a0; split; [exact H0 | apply fle_refl; exact Hn].
  - bind_inv H. unfold max_step, py_gt, py_lt in Ha.
    rewrite H0 in Ha. destruct (as_num item) as [b |] eqn:Hb; [| discriminate Ha].
    simpl in Ha. injection Ha as <-.
    destruct (num_lt a0 b) eqn:L.
    + apply float_lt_fle in L.
      destruct (IH _ _ _ H Hb (fle_not_nan_r _ _ L)) as [a1 [H1 H2]].
      exists a1; split; [exact H1 | exact (fle_trans _ _ _ L H2)].
    + exact (IH _ _ _ H H0 Hn).
Qed.

Lemma min_loop_le (t : list json) : forall (m0 m : json) (a0 : num),
  for_each min_step t m0 = Return m ->
  as_num m0 = Some a0 -> float_of_num a0 <> FNaN ->
  exists a, as_num m = Some a /\ fle (float_of_num a) (float_of_num a0).
Proof.
  induction t as [| item t IH]; simpl; intros m0 m a0 H H0 Hn.
  - injection H as <-. exists a0; split; [exact H0 | apply fle_refl; exact Hn].
  - bind_inv H. unfold min_step, py_lt in Ha.
    rewrite H0 in Ha. destruct (as_num item) as [b |] eqn:Hb; [| discriminate Ha].
    simpl in Ha. injection Ha as <-.
    destruct (num_lt b a0) eqn:L.
    + apply float_lt_fle in L.
      destruct (IH _ _ _ H Hb (fle_not_nan_l _ _ L)) as [a1 [H1 H2]].
      exists a1; split; [exact H1 | exact (fle_trans _ _ _ H2 L)].
    + exact (IH _ _ _ H H0 Hn).
Qed.

(** A NaN in first position is never replaced, and neither is a value that is
    not a number: the loop stops there or raises. *)
Lemma max_loop_stuck (t : list json) : forall (m0 m : json),
  for_each max_step t m0 = Return m ->
  match as_num m0 with
  | Some a0 => float_of_num a0 = FNaN
  | None => True
  end ->
  m = m0.
Proof.
  induction t as [| item t IH]; simpl; intros m0 m H H0.
  - congruence.
  - bind_inv H. unfold max_step, py_gt, py_lt in Ha.
    destruct (as_num m0) as [a0 |] eqn:E0; [| discriminate Ha].
    destruct (as_num item) as [b |]; [| discriminate Ha].
    simpl in Ha. unfold num_lt in Ha. rewrite H0 in Ha. simpl in Ha.
    injection Ha as <-. apply IH; [exact H | rewrite E0; exact H0].
Qed.

Lemma py_round_value (x : json) (r : Z) :
  py_round x = Return r ->
  exists a q, as_num x = Some a /\ float_of_num a = FFin q /\ r = round_half_even q.
Proof.
  unfold py_round. destruct (as_num x) as [a |]; [| discriminate].
  intro H. destruct (round_num_value _ _ H) as [q [H1 H2]].
  exists a, q; auto.
Qed.

(** The heart of [temp_max >= temp_min]: the two loops start from the same
    first temperature, the maximum never goes below it and the minimum never
    above, and rounding is monotone. *)
Lemma round_min_le_round_max (l : list json) (mx mn : json) (rx rn : Z) :
  py_max l = Return mx -> py_round mx = Return rx ->
  py_min l = Return mn -> py_round mn = Return rn ->
  rn <= rx.
Proof.
  destruct l as [| x t]; simpl; intros Hmx Hrx Hmn Hrn; [discriminate Hmx |].
  destruct (py_round_value _ _ Hrx) as [ax [qx [Ax [Fx ->]]]].
  destruct (py_round_value _ _ Hrn) as [an [qn [An [Fn ->]]]].
  destruct (as_num x) as [a0 |] eqn:E0.
  - destruct (float_of_num a0) as [q0 | | |] eqn:F0.
    4: { assert (mx = x) by (apply (max_loop_stuck _ _ _ Hmx); rewrite E0; exact F0).
         subst mx. congruence. }
    all: assert (N0 : float_of_num a0 <> FNaN) by congruence.
    all: destruct (max_loop_le _ _ _ _ Hmx E0 N0) as [a1 [H1 L1]].
    all: destruct (min_loop_le _ _ _ _ Hmn E0 N0) as [a2 [H2 L2]].
    all: assert (L : fle (float_of_num an) (float_of_num ax))
      by (replace an with a2 by congruence; replace ax with a1 by congruence;
          exact (fle_trans _ _ _ L2 L1)).
    all: rewrite Fx, Fn in L; simpl in L; apply round_half_even_mono; exact L.
  - assert (mx = x) by (apply (max_loop_stuck _ _ _ Hmx); rewrite E0; exact I).
    subst mx. congruence.
Qed.

Section Aggregator.

Context {RT : PyRuntime}.

(** ** The second loop *)

Lemma summarise_min_le_max (day : day_data) (s : summary) :
  summarise day = Return s -> sm_temp_min s <= sm_temp_max s.
Proof.
  unfold summarise; intro H.
  bind_inv H. rename a into tmax. bind_inv Ha. rename a into mx.
  bind_inv H. rename a into tmin. bind_inv Ha1. rename a into mn.
  do 3 bind_inv H. injection H as <-. simpl.
  eapply round_min_le_round_max; eassumption.
Qed.

Lemma summaries_loop (l : daily) : forall (acc out : list summary),
  for_each (fun forecast_list p =>
              s <- summarise (snd p) ;; Return (forecast_list ++ [s])%list) l acc = Return out ->
  exists ss, out = (acc ++ ss)%list /\
             Forall2 (fun p s => summarise (snd p) = Return s) l ss.
Proof.
  induction l as [| p l IH]; simpl; intros acc out H.
  - injection H as <-. exists []; split; [symmetry; apply app_nil_r | constructor].
  - bind_inv H. bind_inv Ha. injection Ha as <-.
    destruct (IH _ _ H) as [ss [-> F]].
    exists (a0 :: ss); split.
    + rewrite <- app_assoc; reflexivity.
    + constructor; assumption.
Qed.

Lemma summaries_spec (d : daily) (out : list summary) :
  summaries d = Return out ->
  Forall2 (fun p s => summarise (snd p) = Return s) (firstn 7 d) out.
Proof.
  unfold summaries; intro H.
  destruct (summaries_loop _ _ _ H) as [ss [-> F]]; exact F.
Qed.

Lemma aggregate_bounds (items : list json) (out : list summary) :
  aggregate items = Return out ->
  (List.length out <= 7)%nat /\ Forall (fun s => sm_temp_min s <= sm_temp_max s) out.
Proof.
  unfold aggregate; intro H. bind_inv H. rename a into d.
  apply summaries_spec in H. split.
  - rewrite <- (Forall2_length H). apply firstn_le_length.
  - clear Ha. induction H as [| p s l ss Hs _ IH]; constructor.
    + exact (summarise_min_le_max _ _ Hs).
    + exact IH.
Qed.

(** C3. Whatever the provider answers, [get_weekly_forecast] returns at most 7
    daily summaries, and in each of them [temp_max] is at least [temp_min]. *)
Theorem forecast_at_most_7_and_max_ge_min (requests_get : provider) (city : string) :
  exists forecast_list,
    get_weekly_forecast requests_get city = Return forecast_list /\
    (List.length forecast_list <= 7)%nat /\
    Forall (fun s => sm_temp_max s >= sm_temp_min s) forecast_list.
Proof.
  unfold get_weekly_forecast, get_weekly_forecast_try.
  destruct (requests_get (WEATHER_BASE_URL ++ "/forecast") city) as [r | e]; simpl.
  2: { exists []; repeat split; [simpl; lia | constructor]. }
  destruct (status_code r =? 200).
  2: { exists []; repeat split; [simpl; lia | constructor]. }
  destruct (response_json r) as [data | e]; simpl.
  2: { exists []; repeat split; [simpl; lia | constructor]. }
  destruct (getitem data "list") as [l | e]; simpl.
  2: { exists []; repeat split; [simpl; lia | constructor]. }
  destruct (iterate l) as [items | e]; simpl.
  2: { exists []; repeat split; [simpl; lia | constructor]. }
  destruct (aggregate items) as [out | e] eqn:E; simpl.
  2: { exists []; repeat split; [simpl; lia | constructor]. }
  destruct (aggregate_bounds _ _ E) as [Hlen Hall].
  exists out; repeat split; [exact Hlen |].
  eapply Forall_impl; [| exact Hall]. intros s Hs; simpl in Hs; lia.
Qed.

(** ** The first loop *)

Lemma existsb_filter_neq (x a : string) (m : list string) :
  String.eqb x a = false ->
  existsb (String.eqb x) (filter (fun y => negb (String.eqb y a)) m) = existsb (String.eqb x) m.
Proof.
  intro Hxa. induction m as [| y m IH]; simpl; [reflexivity |].
  destruct (String.eqb y a) eqn:Eya; simpl.
  - apply String.eqb_eq in Eya; subst y. rewrite Hxa; simpl; exact IH.
  - rewrite IH; reflexivity.
Qed.

Lemma existsb_distinct (x : string) (l : list string) :
  existsb (String.eqb x) (distinct String.eqb l) = existsb (String.eqb x) l.
Proof.
  induction l as [| a l IH]; simpl; [reflexivity |].
  destruct (String.eqb x a) eqn:Exa; simpl; [reflexivity |].
  rewrite existsb_filter_neq by exact Exa. exact IH.
Qed.

Lemma distinct_snoc (l : list string) (x : string) :
  distinct String.eqb (l ++ [x]) =
  (distinct String.eqb l ++ (if existsb (String.eqb x) l then [] else [x]))%list.
Proof.
  induction l as [| a l IH]; simpl; [reflexivity |].
  rewrite IH, filter_app. f_equal. f_equal.
  destruct (String.eqb x a) eqn:Exa; simpl.
  - destruct (existsb (String.eqb x) l); simpl; [reflexivity |].
    rewrite Exa; reflexivity.
  - destruct (existsb (String.eqb x) l); simpl; [reflexivity |].
    rewrite Exa; reflexivity.
Qed.

Lemma dates_snoc (done : list json) (item : json) :
  dates (done ++ [item]) =
  (dates done ++ (if existsb (String.eqb (item_key item)) (dates done)
                  then [] else [item_key item]))%list.
Proof.
  unfold dates. rewrite map_app; simpl. rewrite distinct_snoc, existsb_distinct. reflexivity.
Qed.

Lemma group_snoc (k : string) (done : list json) (item : json) :
  group k (done ++ [item]) =
  (group k done ++ (if String.eqb k (item_key item) then [item] else []))%list.
Proof. unfold group. rewrite filter_app; reflexivity. Qed.

Lemma group_nonempty (k : string) (done : list json) :
  existsb (String.eqb k) (dates done) = true -> group k done <> [].
Proof.
  unfold dates; rewrite existsb_distinct. unfold group.
  induction done as [| x done IH]; simpl; [discriminate |].
  destruct (String.eqb k (item_key x)); simpl; [discriminate | exact IH].
Qed.

Lemma group_empty (k : string) (done : list json) :
  existsb (String.eqb k) (dates done) = false -> group k done = [].
Proof.
  unfold dates; rewrite existsb_distinct. unfold group.
  induction done as [| x done IH]; simpl; [reflexivity |].
  destruct (String.eqb k (item_key x)); simpl; [discriminate | exact IH].
Qed.

Lemma day_of_snoc_other (done : list json) (item : json) (k : string) :
  String.eqb k (item_key item) = false ->
  day_of (done ++ [item]) k = day_of done k.
Proof.
  intro H. unfold day_of. rewrite group_snoc, H, app_nil_r. reflexivity.
Qed.

Lemma day_of_snoc_old (done : list json) (item : json) (k : string) :
  String.eqb k (item_key item) = true -> group k done <> [] ->
  day_of (done ++ [item]) k =
  append_sample (value (item_temp item)) (value (item_description item))
                (value (item_humidity item)) (value (item_wind item)) (day_of done k).
Proof.
  intros H Hne. unfold day_of, append_sample; simpl. rewrite group_snoc, H.
  rewrite !map_app; simpl.
  destruct (group k done) as [| x g]; [congruence | reflexivity].
Qed.

Lemma day_of_snoc_new (done : list json) (item : json) (k : string) :
  String.eqb k (item_key item) = true -> group k done = [] ->
  day_of (done ++ [item]) k =
  append_sample (value (item_temp item)) (value (item_description item))
                (value (item_humidity item)) (value (item_wind item))
                {| dd_date := item_label item;
                   dd_temps := [];
                   dd_descriptions := [];
                   dd_humidity := [];
                   dd_wind := [];
                   dd_icon := value (item_icon item) |}.
Proof.
  intros H He. unfold day_of, append_sample; simpl. rewrite group_snoc, H, He. reflexivity.
Qed.

Lemma has_key_map (k : string) (f : string -> day_data) (ks : list string) :
  has_key k (map (fun x => (x, f x)) ks) = existsb (String.eqb k) ks.
Proof.
  unfold has_key. induction ks as [| x ks IH]; simpl; [reflexivity |].
  rewrite IH; reflexivity.
Qed.

Lemma update_map (k : string) (u : day_data -> day_data) (f g : string -> day_data)
  (ks : list string) :
  (forall x, In x ks -> g x = if String.eqb k x then u (f x) else f x) ->
  update k u (map (fun x => (x, f x)) ks) = map (fun x => (x, g x)) ks.
Proof.
  unfold update. induction ks as [| x ks IH]; simpl; intro H; [reflexivity |].
  rewrite IH by (intros y Hy; apply H; right; exact Hy).
  rewrite (H x) by (left; reflexivity).
  destruct (String.eqb k x); reflexivity.
Qed.

Lemma existsb_false_In (k : string) (ks : list string) (x : string) :
  existsb (String.eqb k) ks = false -> In x ks -> String.eqb k x = false.
Proof.
  induction ks as [| y ks IH]; simpl; intros H Hx; [contradiction |].
  apply orb_false_iff in H; destruct H as [H1 H2].
  destruct Hx as [-> | Hx]; [exact H1 | exact (IH H2 Hx)].
Qed.

(** The invariant of the first loop: after the samples [done], the dict holds
    one entry per date of [done], in first-seen order, with the data of that
    date. *)
Lemma forecast_step_spec (done : list json) (item : json) (df df' : daily) :
  df = map (fun k => (k, day_of done k)) (dates done) ->
  forecast_step df item = Return df' ->
  df' = map (fun k => (k, day_of (done ++ [item]) k)) (dates (done ++ [item])).
Proof.
  intros Hdf H. unfold forecast_step in H.
  bind_inv H. rename a into d. cbv zeta in H.
  assert (Hkey : item_key item = strftime d "%Y-%m-%d")
    by (unfold item_key; rewrite Ha; reflexivity).
  assert (Hlabel : item_label item = strftime d "%A, %B %d")
    by (unfold item_label; rewrite Ha; reflexivity).
  rewrite <- Hkey in H.
  bind_inv H. rename a into df1. rename Ha0 into Hdf1.
  bind_inv H. rename a into temp. rename Ha0 into Htemp.
  bind_inv H. rename a into description. rename Ha0 into Hdesc.
  bind_inv H. rename a into humidity. rename Ha0 into Hhum.
  bind_inv H. rename a into wind. rename Ha0 into Hwind.
  injection H as <-.
  assert (Vt : value (item_temp item) = temp) by (rewrite Htemp; reflexivity).
  assert (Vd : value (item_description item) = description) by (rewrite Hdesc; reflexivity).
  assert (Vh : value (item_humidity item) = humidity) by (rewrite Hhum; reflexivity).
  assert (Vw : value (item_wind item) = wind) by (rewrite Hwind; reflexivity).
  subst df. rewrite has_key_map in Hdf1. rewrite dates_snoc.
  destruct (existsb (String.eqb (item_key item)) (dates done)) eqn:E.
  - injection Hdf1 as <-. rewrite app_nil_r.
    apply update_map. intros x Hx.
    destruct (String.eqb (item_key item) x) eqn:Ex.
    + apply String.eqb_eq in Ex; subst x.
      rewrite day_of_snoc_old, Vt, Vd, Vh, Vw;
        [reflexivity | apply String.eqb_refl | apply group_nonempty; exact E].
    + apply day_of_snoc_other. rewrite String.eqb_sym; exact Ex.
  - bind_inv Hdf1. rename a into icon. injection Hdf1 as <-.
    unfold update. rewrite !map_app. fold (update (item_key item)
      (append_sample temp description humidity wind)
      (map (fun k => (k, day_of done k)) (dates done))).
    f_equal.
    + apply update_map. intros x Hx.
      rewrite (existsb_false_In _ _ _ E Hx).
      apply day_of_snoc_other. rewrite String.eqb_sym.
      exact (existsb_false_In _ _ _ E Hx).
    + simpl. rewrite String.eqb_refl.
      rewrite day_of_snoc_new, Vt, Vd, Vh, Vw, Hlabel;
        [| apply String.eqb_refl | apply group_empty; exact E].
      unfold new_day. rewrite Ha0. reflexivity.
Qed.

Lemma forecast_loop_spec (rest : list json) : forall (done : list json) (df df' : daily),
  df = map (fun k => (k, day_of done k)) (dates done) ->
  for_each forecast_step rest df = Return df' ->
  df' = map (fun k => (k, day_of (done ++ rest) k)) (dates (done ++ rest)).
Proof.
  induction rest as [| item rest IH]; simpl; intros done df df' Hdf H.
  - injection H as <-. rewrite app_nil_r. exact Hdf.
  - bind_inv H. rename a into df1.
    replace (done ++ item :: rest)%list with ((done ++ [item]) ++ rest)%list
      by (rewrite <- app_assoc; reflexivity).
    apply (IH _ df1); [| exact H].
    exact (forecast_step_spec _ _ _ _ Hdf Ha).
Qed.

(** Every sample the first loop has read has a date. *)
Lemma forecast_loop_dated (items : list json) : forall (df df' : daily),
  for_each forecast_step items df = Return df' ->
  Forall (fun item => exists d, item_date item = Return d) items.
Proof.
  induction items as [| item items IH]; simpl; intros df df' H; constructor.
  - bind_inv H. unfold forecast_step in Ha. bind_inv Ha. exists a0; exact Ha0.
  - bind_inv H. exact (IH _ _ H).
Qed.

(** ** Both loops *)

Lemma Forall2_map_l {A B C : Type} (f : A -> B) (R : B -> C -> Prop) (l : list A) :
  forall l', Forall2 R (map f l) l' -> Forall2 (fun a c => R (f a) c) l l'.
Proof.
  induction l as [| a l IH]; simpl; intros l' H; inversion H; subst; constructor; auto.
Qed.

Lemma summarise_date (day : day_data) (s : summary) :
  summarise day = Return s -> sm_date s = dd_date day /\ sm_icon s = dd_icon day.
Proof.
  unfold summarise; intro H. do 5 bind_inv H. injection H as <-. split; reflexivity.
Qed.

Lemma summarise_description (day : day_data) (s : summary) :
  summarise day = Return s -> most_common (dd_descriptions day) = Return (sm_description s).
Proof.
  unfold summarise; intro H. do 5 bind_inv H. injection H as <-. simpl. exact Ha1.
Qed.

(** What [aggregate] returns when no operation raises: the summaries of the
    first 7 dates, in first-seen order, each computed from the samples of its
    date. *)
Lemma aggregate_spec (items : list json) (out : list summary) :
  aggregate items = Return out ->
  Forall2 (fun k s => summarise (day_of items k) = Return s) (firstn 7 (dates items)) out.
Proof.
  unfold aggregate; intro H. bind_inv H. rename a into df.
  assert (Hdf : df = map (fun k => (k, day_of items k)) (dates items)).
  { apply (forecast_loop_spec items [] [] df); [reflexivity | exact Ha]. }
  apply summaries_spec in H. subst df.
  rewrite firstn_map in H. apply Forall2_map_l in H. exact H.
Qed.

(** ** The most frequent description *)

(** [max_by] returns the first item of greatest key. *)
Lemma max_by_first_max {A : Type} (key : A -> Z) (t : list A) : forall best : A,
  exists pre post,
    best :: t = (pre ++ max_by key best t :: post)%list /\
    (forall x, In x pre -> key x < key (max_by key best t)) /\
    (forall x, In x post -> key x <= key (max_by key best t)).
Proof.
  induction t as [| x t IH]; intro best; simpl.
  - exists [], []; repeat split; simpl; intros y Hy; contradiction.
  - destruct (key best <? key x) eqn:L.
    + apply Z.ltb_lt in L.
      destruct (IH x) as [pre [post [E [Hpre Hpost]]]].
      set (r := max_by key x t) in *.
      assert (Hx : key x <= key r).
      { assert (Hin : In x (pre ++ r :: post)) by (rewrite <- E; left; reflexivity).
        apply in_app_or in Hin. destruct Hin as [Hin | [Hr | Hin]].
        - specialize (Hpre _ Hin); lia.
        - rewrite Hr; lia.
        - exact (Hpost _ Hin). }
      exists (best :: pre), post. repeat split.
      * simpl. rewrite E. reflexivity.
      * intros y [<- | Hy]; [lia | exact (Hpre _ Hy)].
      * exact Hpost.
    + apply Z.ltb_ge in L.
      destruct (IH best) as [pre [post [E [Hpre Hpost]]]].
      set (r := max_by key best t) in *.
      destruct pre as [| b pre]; simpl in E.
      * injection E as Eb Et. exists [], (x :: post). repeat split.
        -- simpl. rewrite <- Eb, Et. reflexivity.
        -- intros y Hy; contradiction.
        -- intros y [<- | Hy]; [rewrite <- Eb; exact L | exact (Hpost _ Hy)].
      * injection E as Eb Et. subst b.
        exists (best :: x :: pre), post. repeat split.
        -- simpl. rewrite Et. reflexivity.
        -- intros y [<- | [<- | Hy]].
           ++ apply Hpre; left; reflexivity.
           ++ assert (key best < key r) by (apply Hpre; left; reflexivity). lia.
           ++ apply Hpre; right; exact Hy.
        -- exact Hpost.
Qed.

Lemma num_eq_refl (a : num) : num_eq a a = true.
Proof.
  unfold num_eq. destruct (float_of_num a); try reflexivity.
  apply Qeq_bool_iff. reflexivity.
Qed.

Lemma num_eq_sym (a b : num) : num_eq a b = num_eq b a.
Proof.
  unfold num_eq. destruct (float_of_num a) as [x | | |], (float_of_num b) as [y | | |];
    try reflexivity.
  destruct (Qeq_bool x y) eqn:E, (Qeq_bool y x) eqn:E'; try reflexivity.
  - apply Qeq_bool_iff in E. symmetry in E. apply Qeq_bool_iff in E. congruence.
  - apply Qeq_bool_iff in E'. symmetry in E'. apply Qeq_bool_iff in E'. congruence.
Qed.

Lemma num_eq_trans (a b c : num) : num_eq a b = true -> num_eq b c = true -> num_eq a c = true.
Proof.
  unfold num_eq.
  destruct (float_of_num a) as [x | | |], (float_of_num b) as [y | | |],
    (float_of_num c) as [z | | |]; intros H1 H2; try discriminate; try reflexivity.
  apply Qeq_bool_iff in H1, H2. apply Qeq_bool_iff. rewrite H1. exact H2.
Qed.

Lemma py_eq_refl (a : json) : hashable a = true -> py_eq a a = true.
Proof.
  destruct a; simpl; intro H; try discriminate H; try reflexivity.
  - apply num_eq_refl.
  - apply num_eq_refl.
  - apply String.eqb_refl.
Qed.

Lemma py_eq_sym (a b : json) : py_eq a b = py_eq b a.
Proof.
  destruct a, b; simpl; try reflexivity; try apply num_eq_sym.
  apply String.eqb_sym.
Qed.

Lemma py_eq_trans (a b c : json) : py_eq a b = true -> py_eq b c = true -> py_eq a c = true.
Proof.
  destruct a, b, c; simpl; intros H1 H2; try discriminate; try reflexivity;
    try (eapply num_eq_trans; eassumption).
  apply String.eqb_eq in H1, H2. apply String.eqb_eq. congruence.
Qed.

Lemma count_py_eq (l : list json) (x x' : json) :
  py_eq x x' = true -> count l x = count l x'.
Proof.
  intro H. unfold count. f_equal. f_equal.
  apply filter_ext. intro y.
  destruct (py_eq y x) eqn:E, (py_eq y x') eqn:E'; try reflexivity.
  - rewrite (py_eq_trans _ _ _ E H) in E'. discriminate.
  - rewrite py_eq_sym in H. rewrite (py_eq_trans _ _ _ E' H) in E. discriminate.
Qed.

Lemma distinct_incl (l : list json) (x : json) : In x (distinct py_eq l) -> In x l.
Proof.
  induction l as [| a l IH]; simpl; [auto |].
  intros [-> | H]; [left; reflexivity |].
  apply filter_In in H. right. apply IH. exact (proj1 H).
Qed.

(** Every hashable element of [l] is equal to an element of the set. *)
Lemma distinct_represents (l : list json) (x : json) :
  In x l -> hashable x = true ->
  exists x', In x' (distinct py_eq l) /\ py_eq x x' = true.
Proof.
  induction l as [| a l IH]; simpl; [contradiction |].
  intros [-> | H] Hx.
  - exists x; split; [left; reflexivity | apply py_eq_refl; exact Hx].
  - destruct (IH H Hx) as [x' [Hin He]].
    destruct (py_eq x' a) eqn:E.
    + exists a; split; [left; reflexivity | exact (py_eq_trans _ _ _ He E)].
    + exists x'; split; [| exact He].
      right. apply filter_In. split; [exact Hin | rewrite E; reflexivity].
Qed.

Lemma most_common_spec (l : list json) (d : json) :
  set_iter_ok RT ->
  most_common l = Return d ->
  most_frequent l d /\ first_in_set_order l d.
Proof.
  intros Hset H. unfold most_common in H.
  destruct (forallb hashable l) eqn:Hh; [| discriminate H].
  destruct (set_iter (distinct py_eq l)) as [| x t] eqn:Es; [discriminate H |].
  injection H as <-.
  destruct (max_by_first_max (count l) t x) as [pre [post [E [Hpre Hpost]]]].
  set (d := max_by (count l) x t) in *.
  assert (Hd : In d (set_iter (distinct py_eq l))).
  { rewrite Es, E. apply in_or_app; right; left; reflexivity. }
  repeat split.
  - apply distinct_incl. exact (Permutation_in _ (Hset _) Hd).
  - intros y Hy.
    assert (Hhy : hashable y = true) by (exact (proj1 (forallb_forall _ _) Hh y Hy)).
    destruct (distinct_represents _ _ Hy Hhy) as [y' [Hin He]].
    rewrite (count_py_eq _ _ _ He).
    apply (Permutation_in _ (Permutation_sym (Hset _))) in Hin.
    rewrite Es, E in Hin. apply in_app_or in Hin.
    destruct Hin as [Hin | [Hin | Hin]].
    + specialize (Hpre _ Hin); lia.
    + rewrite Hin; lia.
    + exact (Hpost _ Hin).
  - exists pre, post. split; [rewrite Es; exact E | exact Hpre].
Qed.

(** C2, as the code has it. When the aggregation completes, the description of
    every emitted summary is a most frequent description among the samples of
    its date; when several descriptions have the greatest count, it is the one
    that the iteration over the set of descriptions meets first, whatever
    their order among the samples. *)
Theorem description_is_most_frequent (items : list json) (out : list summary) :
  set_iter_ok RT ->
  aggregate items = Return out ->
  Forall2 (fun k s =>
             most_frequent (dd_descriptions (day_of items k)) (sm_description s) /\
             first_in_set_order (dd_descriptions (day_of items k)) (sm_description s))
          (firstn 7 (dates items)) out.
Proof.
  intros Hset H. apply aggregate_spec in H.
  eapply Forall2_impl; [| exact H].
  intros k s Hs. apply most_common_spec; [exact Hset |].
  apply summarise_description; exact Hs.
Qed.

(** ** Mean humidity and mean wind speed *)






(** The sum of integers is exact, so their mean is the exact mean rounded once
    to a float. *)
Lemma py_sum_ints (zs : list Z) : forall a : Z,
  for_each (fun acc x =>
              match as_num x with
              | Some n => py_add acc n
              | None => Raise TypeError
              end) (map (fun z => JNum (NInt z)) zs) (NInt a) =
  Return (NInt (fold_left Z.add zs a)).
Proof.
  induction zs as [| z zs IH]; intro a; simpl; [reflexivity | apply IH].
Qed.

Lemma py_mean_ints (zs : list Z) :
  zs <> [] ->
  py_mean (map (fun z => JNum (NInt z)) zs) =
  match rnd (inject_Z (fold_left Z.add zs 0) / inject_Z (Z.of_nat (List.length zs))) with
  | FFin q => Return (NFloat (FFin q))
  | _ => Raise OverflowError
  end.
Proof.
  intro Hne. unfold py_mean, py_sum. rewrite py_sum_ints. cbn [bind py_truediv].
  rewrite length_map.
  replace (Z.of_nat (List.length zs) =? 0) with false; [reflexivity |].
  symmetry. apply Z.eqb_neq. destruct zs; [congruence | simpl; lia].
Qed.


(** ** The boundary of the weather functions *)

(** A network exception, a body that is not JSON and a missing field all make
    the [try] block raise. *)
Lemma current_try_raises (requests_get : provider) (now : Z) (city : string) (e : exn) :
  requests_get (WEATHER_BASE_URL ++ "/weather") city = Raise e \/
  (exists r, requests_get (WEATHER_BASE_URL ++ "/weather") city = Return r /\
             status_code r = 200 /\
             (response_json r = Raise e \/
              exists data, response_json r = Return data /\ getitem data "name" = Raise e)) ->
  get_current_weather_try requests_get now city = Raise e.
Proof.
  unfold get_current_weather_try.
  intros [H | [r [H [Hs [Hj | [data [Hj Hn]]]]]]]; rewrite H; simpl; [reflexivity | |];
    rewrite Hs; simpl; rewrite Hj; simpl; [reflexivity |].
  rewrite Hn; reflexivity.
Qed.

Lemma forecast_try_raises (requests_get : provider) (city : string) (e : exn) :
  requests_get (WEATHER_BASE_URL ++ "/forecast") city = Raise e \/
  (exists r, requests_get (WEATHER_BASE_URL ++ "/forecast") city = Return r /\
             status_code r = 200 /\
             (response_json r = Raise e \/
              exists data, response_json r = Return data /\ getitem data "list" = Raise e)) ->
  get_weekly_forecast_try requests_get city = Raise e.
Proof.
  unfold get_weekly_forecast_try.
  intros [H | [r [H [Hs [Hj | [data [Hj Hn]]]]]]]; rewrite H; simpl; [reflexivity | |];
    rewrite Hs; simpl; rewrite Hj; simpl; [reflexivity |].
  rewrite Hn; reflexivity.
Qed.

Lemma get_current_weather_returns (requests_get : provider) (now : Z) (city : string) :
  exists r, get_current_weather requests_get now city = Return r.
Proof.
  unfold get_current_weather, try_except.
  destruct (get_current_weather_try requests_get now city) as [r | e]; eauto.
Qed.

Lemma get_weekly_forecast_returns (requests_get : provider) (city : string) :
  exists l, get_weekly_forecast requests_get city = Return l.
Proof.
  unfold get_weekly_forecast, try_except.
  destruct (get_weekly_forecast_try requests_get city) as [[l |] | e]; simpl; eauto.
Qed.

(** C10. For every behaviour of the provider, [get_current_weather] and
    [get_weekly_forecast] return a value and raise nothing; when their [try]
    block raises (a network exception, a body that is not JSON, a missing
    field, ...) the value is [None] and the empty list respectively. *)
Theorem weather_functions_never_raise (requests_get : provider) (now : Z) (city : string) :
  (exists r, get_current_weather requests_get now city = Return r) /\
  (exists l, get_weekly_forecast requests_get city = Return l) /\
  (forall e, get_current_weather_try requests_get now city = Raise e ->
             get_current_weather requests_get now city = Return None) /\
  (forall e, get_weekly_forecast_try requests_get city = Raise e ->
             get_weekly_forecast requests_get city = Return []).
Proof.
  split; [apply get_current_weather_returns |].
  split; [apply get_weekly_forecast_returns |].
  split; intros e H.
  - unfold get_current_weather. rewrite H. reflexivity.
  - unfold get_weekly_forecast. rewrite H. reflexivity.
Qed.

End Aggregator.

(** ** Completion on well-formed samples *)

Lemma pow2_succ (j : Z) : 0 <= j -> (inject_Z (2 ^ (j + 1)) == 2 * inject_Z (2 ^ j))%Q.
Proof.
  intro Hj. rewrite Z.pow_add_r by lia. rewrite inject_Z_mult. 
  change (2 ^ 1) with 2. rewrite Qmult_comm. reflexivity.
Qed.

Lemma pow2_ge_1 (j : Z) : 0 <= j -> (1 <= inject_Z (2 ^ j))%Q.
Proof.
  intro Hj. change 1%Q with (inject_Z 1). rewrite <- Zle_Qle.
  assert (0 < 2 ^ j) by (apply Z.pow_pos_nonneg; lia). lia.
Qed.

Lemma pow2_mono (j k : Z) : 0 <= j <= k -> (inject_Z (2 ^ j) <= inject_Z (2 ^ k))%Q.
Proof.
  intro H. rewrite <- Zle_Qle. apply Z.pow_le_mono_r; lia.
Qed.

Lemma Qabs_le_iff (x y : Q) : (Qabs x <= y)%Q <-> (- y <= x /\ x <= y)%Q.
Proof. apply Qabs_Qle_condition. Qed.

Lemma Qdiv_bound (x y b : Q) : (1 <= y)%Q -> (Qabs x <= b)%Q -> (Qabs (x / y) <= b)%Q.
Proof.
  intros Hy Hx. apply Qabs_le_iff in Hx. destruct Hx as [H1 H2]. apply Qabs_le_iff.
  assert (Hy0 : (0 < y)%Q) by lra.
  assert (Hb : (0 <= b)%Q) by lra.
  split.
  - apply Qle_shift_div_l; [exact Hy0 |]. nra.
  - apply Qle_shift_div_r; [exact Hy0 |]. nra.
Qed.

Section Completion.

Context {RT : PyRuntime}.
Hypothesis Hrnd : rnd_faithful.

Lemma rnd_bounded (q : Q) (j : Z) :
  0 <= j <= 1023 -> (Qabs q <= inject_Z (2 ^ j))%Q ->
  exists r, rnd q = FFin r /\ (Qabs r <= inject_Z (2 ^ j))%Q.
Proof. exact (proj1 Hrnd q j). Qed.

Lemma bounded_mono (j k : Z) (n : num) : 0 <= j <= k -> bounded j n -> bounded k n.
Proof.
  intros H [q [E B]]. exists q; split; [exact E |].
  eapply Qle_trans; [exact B | apply pow2_mono; exact H].
Qed.

Lemma rnd_sum_bounded (x y : Q) (j : Z) :
  0 <= j -> j + 1 <= 1023 ->
  (Qabs x <= inject_Z (2 ^ j))%Q -> (Qabs y <= inject_Z (2 ^ j))%Q ->
  exists r, rnd (x + y) = FFin r /\ (Qabs r <= inject_Z (2 ^ (j + 1)))%Q.
Proof.
  intros Hj Hj1 Hx Hy. apply rnd_bounded; [lia |].
  rewrite pow2_succ by exact Hj.
  eapply Qle_trans; [apply Qabs_triangle |]. lra.
Qed.

Lemma to_float_bounded (z : Z) (j : Z) :
  0 <= j <= 1023 -> bounded j (NInt z) ->
  exists r, rnd (inject_Z z) = FFin r /\ to_float z = Return (FFin r) /\
            (Qabs r <= inject_Z (2 ^ j))%Q.
Proof.
  intros Hj [q [E B]]. simpl in E. injection E as <-.
  destruct (rnd_bounded _ _ Hj B) as [r [Er Br]].
  exists r. unfold to_float. rewrite Er. repeat split. exact Br.
Qed.

Lemma py_add_bounded (a b : num) (j : Z) :
  0 <= j -> j + 1 <= 1023 -> bounded j a -> bounded j b ->
  exists c, py_add a b = Return c /\ bounded (j + 1) c.
Proof.
  intros Hj Hj1 Ha Hb.
  destruct a as [x | f], b as [y | g]; simpl.
  - destruct Ha as [qa [Ea Ba]], Hb as [qb [Eb Bb]]. simpl in Ea, Eb.
    injection Ea as <-. injection Eb as <-.
    eexists; split; [reflexivity |].
    exists (inject_Z (x + y)); split; [reflexivity |].
    rewrite inject_Z_plus, pow2_succ by exact Hj.
    eapply Qle_trans; [apply Qabs_triangle |]. lra.
  - destruct (to_float_bounded x j) as [r [_ [Er Br]]]; [lia | exact Ha |].
    rewrite Er; simpl.
    destruct Hb as [qb [Eb Bb]]. simpl in Eb. subst g. simpl.
    destruct (rnd_sum_bounded r qb j Hj Hj1 Br Bb) as [r' [Er' Br']].
    rewrite Er'. eexists; split; [reflexivity |]. exists r'; split; [reflexivity | exact Br'].
  - destruct (to_float_bounded y j) as [r [_ [Er Br]]]; [lia | exact Hb |].
    rewrite Er; simpl.
    destruct Ha as [qa [Ea Ba]]. simpl in Ea. subst f. simpl.
    destruct (rnd_sum_bounded qa r j Hj Hj1 Ba Br) as [r' [Er' Br']].
    rewrite Er'. eexists; split; [reflexivity |]. exists r'; split; [reflexivity | exact Br'].
  - destruct Ha as [qa [Ea Ba]], Hb as [qb [Eb Bb]]. simpl in Ea, Eb. subst f g. simpl.
    destruct (rnd_sum_bounded qa qb j Hj Hj1 Ba Bb) as [r' [Er' Br']].
    rewrite Er'. eexists; split; [reflexivity |]. exists r'; split; [reflexivity | exact Br'].
Qed.

Lemma py_sum_loop_bounded (k : Z) (l : list json) : forall (acc : num) (j : Z),
  0 <= k <= j -> j + Z.of_nat (List.length l) <= 1023 ->
  Forall (number_within k) l -> bounded j acc ->
  exists s,
    for_each (fun acc x =>
                match as_num x with
                | Some n => py_add acc n
                | None => Raise TypeError
                end) l acc = Return s /\
    bounded (j + Z.of_nat (List.length l)) s.
Proof.
  induction l as [| x l IH]; intros acc j Hk Hlen Hl Hacc.
  - exists acc; split; [reflexivity |]. simpl. rewrite Z.add_0_r. exact Hacc.
  - inversion Hl as [| ? ? [n [-> Hn]] Hl']; subst.
    cbn [for_each as_num List.length] in *.
    destruct (py_add_bounded acc n j) as [c [Ec Bc]];
      [lia | lia | exact Hacc | apply (bounded_mono k j); [lia | exact Hn] |].
    rewrite Ec. cbn [bind].
    destruct (IH c (j + 1)) as [s [Es Bs]]; [lia | lia | exact Hl' | exact Bc |].
    exists s; split; [exact Es |].
    replace (j + Z.of_nat (S (List.length l))) with (j + 1 + Z.of_nat (List.length l)) by lia.
    exact Bs.
Qed.

Lemma py_sum_bounded (k : Z) (l : list json) :
  0 <= k -> k + Z.of_nat (List.length l) <= 1023 ->
  Forall (number_within k) l ->
  exists s, py_sum l = Return s /\ bounded (k + Z.of_nat (List.length l)) s.
Proof.
  intros Hk Hlen Hl. unfold py_sum.
  apply (py_sum_loop_bounded k); [lia | exact Hlen | exact Hl |].
  exists (inject_Z 0); split; [reflexivity |].
  eapply Qle_trans; [| apply pow2_ge_1; exact Hk]. simpl. lra.
Qed.

Lemma py_truediv_bounded (a : num) (n j : Z) :
  0 <= j <= 1023 -> 1 <= n <= 2 ^ j -> bounded j a ->
  exists q, py_truediv a n = Return (NFloat (FFin q)) /\ (Qabs q <= inject_Z (2 ^ j))%Q.
Proof.
  intros Hj Hn [qa [Ea Ba]].
  assert (Hn1 : (1 <= inject_Z n)%Q).
  { change 1%Q with (inject_Z 1). rewrite <- Zle_Qle. lia. }
  destruct a as [x | f]; simpl in *.
  - injection Ea as <-.
    replace (n =? 0) with false by (symmetry; apply Z.eqb_neq; lia).
    destruct (rnd_bounded (inject_Z x / inject_Z n) j Hj) as [r [Er Br]].
    { apply Qdiv_bound; assumption. }
    rewrite Er. exists r; split; [reflexivity | exact Br].
  - subst f.
    destruct (to_float_bounded n j Hj) as [r [Ernd [Er Br]]].
    { exists (inject_Z n); split; [reflexivity |].
      rewrite Qabs_pos by lra. rewrite <- Zle_Qle. lia. }
    rewrite Er; simpl.
    assert (Hr1 : (1 <= r)%Q) by (exact (proj2 Hrnd _ _ Hn1 Ernd)).
    replace (Qeq_bool r 0) with false.
    2: { symmetry. apply not_true_iff_false. intro E. apply Qeq_bool_iff in E. lra. }
    destruct (rnd_bounded (qa / r) j Hj) as [r' [Er' Br']].
    { apply Qdiv_bound; assumption. }
    rewrite Er'. simpl. exists r'; split; [reflexivity | exact Br'].
Qed.

Lemma round_tenth_bounded (q : Q) (j : Z) :
  0 <= j -> (Qabs q <= inject_Z (2 ^ j))%Q ->
  (Qabs (inject_Z (round_half_even (q * 10)) / 10) <= inject_Z (2 ^ (j + 1)))%Q.
Proof.
  intros Hj Hq. rewrite pow2_succ by exact Hj.
  pose proof (pow2_ge_1 j Hj) as H1.
  pose proof (round_half_even_bounds (q * 10)) as [Hlo Hhi].
  pose proof (Qfloor_le (q * 10)) as Hfl.
  pose proof (Qlt_floor (q * 10)) as Hfu.
  rewrite Zle_Qle in Hlo, Hhi. rewrite inject_Z_plus in Hhi, Hfu.
  change (inject_Z 1) with 1%Q in Hhi, Hfu.
  apply Qabs_le_iff in Hq. destruct Hq as [Hq1 Hq2].
  apply Qabs_le_iff. split.
  - apply Qle_shift_div_l; [reflexivity |]. lra.
  - apply Qle_shift_div_r; [reflexivity |]. lra.
Qed.

Lemma py_round1_bounded (q : Q) (j : Z) :
  0 <= j -> j + 1 <= 1023 -> (Qabs q <= inject_Z (2 ^ j))%Q ->
  exists w, py_round1 (NFloat (FFin q)) = Return w.
Proof.
  intros Hj Hj1 Hq. simpl.
  destruct (rnd_bounded (inject_Z (round_half_even (q * 10)) / 10) (j + 1)) as [r [Er _]];
    [lia | apply round_tenth_bounded; assumption |].
  rewrite Er. eauto.
Qed.

Lemma max_loop_completes (t : list json) : forall m0 : json,
  finite_number m0 -> Forall finite_number t ->
  exists m, for_each max_step t m0 = Return m /\ finite_number m.
Proof.
  induction t as [| x t IH]; intros m0 H0 Ht; simpl.
  - exists m0; split; [reflexivity | exact H0].
  - inversion Ht as [| ? ? Hx Ht']; subst.
    destruct H0 as [n0 [-> F0]]. destruct Hx as [n [-> F]].
    unfold max_step, py_gt, py_lt; simpl.
    apply IH; [| exact Ht'].
    destruct (num_lt n0 n); [exists n | exists n0]; auto.
Qed.

Lemma min_loop_completes (t : list json) : forall m0 : json,
  finite_number m0 -> Forall finite_number t ->
  exists m, for_each min_step t m0 = Return m /\ finite_number m.
Proof.
  induction t as [| x t IH]; intros m0 H0 Ht; simpl.
  - exists m0; split; [reflexivity | exact H0].
  - inversion Ht as [| ? ? Hx Ht']; subst.
    destruct H0 as [n0 [-> F0]]. destruct Hx as [n [-> F]].
    unfold min_step, py_lt; simpl.
    apply IH; [| exact Ht'].
    destruct (num_lt n n0); [exists n | exists n0]; auto.
Qed.

Lemma py_round_completes (x : json) : finite_number x -> exists r, py_round x = Return r.
Proof.
  intros [n [-> [q E]]]. unfold py_round; simpl.
  destruct n as [z | f]; simpl in *; [eauto |]. subst f. eauto.
Qed.

Lemma most_common_completes (l : list json) :
  set_iter_ok RT -> l <> [] -> Forall is_string l ->
  exists d, most_common l = Return d.
Proof.
  intros Hset Hne Hl. unfold most_common.
  replace (forallb hashable l) with true.
  2: { symmetry. apply forallb_forall. intros x Hx.
       rewrite Forall_forall in Hl. destruct (Hl x Hx) as [s ->]. reflexivity. }
  destruct l as [| x t]; [congruence |]. simpl.
  destruct (set_iter (x :: filter (fun y => negb (py_eq y x)) (distinct py_eq t)))
    as [| y t'] eqn:E; [| eauto].
  pose proof (Hset (x :: filter (fun y => negb (py_eq y x)) (distinct py_eq t))) as P.
  rewrite E in P. apply Permutation_nil in P. discriminate P.
Qed.

Lemma summarise_completes (day : day_data) (k : Z) :
  set_iter_ok RT ->
  0 <= k ->
  k + Z.of_nat (List.length (dd_humidity day)) + 1 <= 1023 ->
  k + Z.of_nat (List.length (dd_wind day)) + 1 <= 1023 ->
  dd_temps day <> [] -> Forall finite_number (dd_temps day) ->
  dd_descriptions day <> [] -> Forall is_string (dd_descriptions day) ->
  dd_humidity day <> [] -> Forall (number_within k) (dd_humidity day) ->
  dd_wind day <> [] -> Forall (number_within k) (dd_wind day) ->
  exists s, summarise day = Return s.
Proof.
  intros Hset Hk Lh Lw Tne Tf Dne Ds Hne Hb Wne Wb. unfold summarise.
  destruct (dd_temps day) as [| x t] eqn:Et; [congruence |].
  inversion Tf as [| ? ? Fx Ft]; subst.
  destruct (max_loop_completes t x Fx Ft) as [mx [Emx Fmx]].
  destruct (py_round_completes mx Fmx) as [rx Erx].
  destruct (min_loop_completes t x Fx Ft) as [mn [Emn Fmn]].
  destruct (py_round_completes mn Fmn) as [rn Ern].
  destruct (most_common_completes _ Hset Dne Ds) as [d Ed].
  assert (Hlen : forall l : list json, l <> [] ->
            1 <= Z.of_nat (List.length l) <= 2 ^ (k + Z.of_nat (List.length l))).
  { intros l Hl. destruct l as [| y l']; [congruence |].
    split; [simpl List.length; lia |].
    apply Z.le_trans with (2 ^ Z.of_nat (List.length (y :: l'))).
    - apply Z.lt_le_incl, Z.pow_gt_lin_r; lia.
    - apply Z.pow_le_mono_r; lia. }
  set (jh := k + Z.of_nat (List.length (dd_humidity day))) in *.
  set (jw := k + Z.of_nat (List.length (dd_wind day))) in *.
  destruct (py_sum_bounded k (dd_humidity day) Hk) as [sh [Esh Bsh]]; [lia | exact Hb |].
  destruct (py_truediv_bounded sh (Z.of_nat (List.length (dd_humidity day))) jh)
    as [qh [Eqh _]];
    [lia | exact (Hlen _ Hne) | exact Bsh |].
  destruct (py_sum_bounded k (dd_wind day) Hk) as [sw [Esw Bsw]]; [lia | exact Wb |].
  destruct (py_truediv_bounded sw (Z.of_nat (List.length (dd_wind day))) jw)
    as [qw [Eqw Bqw]];
    [lia | exact (Hlen _ Wne) | exact Bsw |].
  destruct (py_round1_bounded qw jw) as [w Ew]; [lia | lia | exact Bqw |].
  cbn [py_max py_min]. rewrite Emx, Emn. cbn [bind]. rewrite Erx, Ern. cbn [bind].
  rewrite Ed. cbn [bind]. unfold py_mean.
  rewrite Esh. cbn [bind]. rewrite Eqh. cbn [bind round_num].
  rewrite Esw. cbn [bind]. rewrite Eqw. cbn [bind]. rewrite Ew. cbn [bind].
  eauto.
Qed.

Lemma forecast_step_completes (k : Z) (item : json) (df : daily) :
  well_formed k item -> exists df', forecast_step df item = Return df'.
Proof.
  intros [[d Hd] [[icon Hi] [[t [Ht _]] [[s Hs] [[h [Hh _]] [w [Hw _]]]]]]].
  unfold forecast_step. rewrite Hd. cbn [bind]. cbv zeta.
  destruct (has_key (strftime d "%Y-%m-%d") df).
  - cbn [bind]. rewrite Ht, Hs, Hh, Hw. cbn [bind]. eauto.
  - rewrite Hi. cbn [bind]. rewrite Ht, Hs, Hh, Hw. cbn [bind]. eauto.
Qed.

Lemma forecast_loop_completes (k : Z) (items : list json) : forall df : daily,
  Forall (well_formed k) items ->
  exists df', for_each forecast_step items df = Return df'.
Proof.
  induction items as [| item items IH]; intros df H; simpl; [eauto |].
  inversion H as [| ? ? Hitem Hrest]; subst.
  destruct (forecast_step_completes k item df Hitem) as [df1 E].
  rewrite E. cbn [bind]. apply IH. exact Hrest.
Qed.

Lemma filter_length_le_all {A : Type} (p : A -> bool) (l : list A) :
  (List.length (filter p l) <= List.length l)%nat.
Proof.
  induction l as [| x l IH]; simpl; [lia |].
  destruct (p x); simpl; lia.
Qed.

Lemma Forall_filter_keep {A : Type} (P : A -> Prop) (p : A -> bool) (l : list A) :
  Forall P l -> Forall P (filter p l).
Proof.
  rewrite !Forall_forall. intros H x Hx. apply filter_In in Hx. apply H. exact (proj1 Hx).
Qed.

Lemma Forall_map_of {A B : Type} (P : A -> Prop) (Q : B -> Prop) (f : A -> B) (l : list A) :
  (forall x, P x -> Q (f x)) -> Forall P l -> Forall Q (map f l).
Proof.
  intros H F. induction F; simpl; constructor; auto.
Qed.

(** The data of a date of well-formed samples passes through [summarise]. *)
Lemma day_of_completes (k : Z) (items : list json) (key : string) :
  set_iter_ok RT ->
  0 <= k -> k + Z.of_nat (List.length items) + 1 <= 1023 ->
  Forall (well_formed k) items ->
  In key (dates items) ->
  exists s, summarise (day_of items key) = Return s.
Proof.
  intros Hset Hk Hlen Hwf Hin.
  assert (Hne : group key items <> []).
  { apply group_nonempty. apply existsb_exists. exists key; split;
      [exact Hin | apply String.eqb_refl]. }
  assert (Hg : Forall (well_formed k) (group key items))
    by (apply Forall_filter_keep; exact Hwf).
  assert (Hl : (List.length (group key items) <= List.length items)%nat)
    by apply filter_length_le_all.
  assert (Hmap : forall f : json -> json, map f (group key items) <> []).
  { intros f E. apply map_eq_nil in E. exact (Hne E). }
  apply (summarise_completes _ k Hset Hk); unfold day_of; cbn [dd_temps dd_descriptions
    dd_humidity dd_wind]; rewrite ?length_map; try lia; try apply Hmap.
  - eapply Forall_map_of; [| exact Hg].
    intros x [_ [_ [[t [Ht Ft]] _]]]. rewrite Ht. exists t; auto.
  - eapply Forall_map_of; [| exact Hg].
    intros x [_ [_ [_ [[s Hs] _]]]]. rewrite Hs. exists s; reflexivity.
  - eapply Forall_map_of; [| exact Hg].
    intros x [_ [_ [_ [_ [[h [Hh Bh]] _]]]]]. rewrite Hh. exists h; auto.
  - eapply Forall_map_of; [| exact Hg].
    intros x [_ [_ [_ [_ [_ [w [Hw Bw]]]]]]]. rewrite Hw. exists w; auto.
Qed.

Lemma In_firstn {A : Type} (n : nat) : forall (l : list A) (x : A),
  In x (firstn n l) -> In x l.
Proof.
  induction n as [| n IH]; intros l x H; simpl in H; [contradiction |].
  destruct l as [| y l]; [contradiction |].
  destruct H as [-> | H]; [left; reflexivity | right; exact (IH _ _ H)].
Qed.

Lemma summaries_loop_completes (l : daily) : forall acc : list summary,
  Forall (fun p => exists s, summarise (snd p) = Return s) l ->
  exists out,
    for_each (fun forecast_list p =>
                s <- summarise (snd p) ;; Return (forecast_list ++ [s])%list) l acc = Return out.
Proof.
  induction l as [| p l IH]; intros acc H; simpl; [eauto |].
  inversion H as [| ? ? [s Hs] Hrest]; subst.
  rewrite Hs. cbn [bind]. apply IH. exact Hrest.
Qed.

(** On well-formed samples, within the range of the floats, no operation of
    the aggregator raises. *)
Lemma aggregate_completes (k : Z) (items : list json) :
  set_iter_ok RT ->
  0 <= k -> k + Z.of_nat (List.length items) + 1 <= 1023 ->
  Forall (well_formed k) items ->
  exists out, aggregate items = Return out.
Proof.
  intros Hset Hk Hlen Hwf. unfold aggregate.
  destruct (forecast_loop_completes k items [] Hwf) as [df Edf].
  rewrite Edf. cbn [bind].
  assert (Hdf : df = map (fun key => (key, day_of items key)) (dates items)).
  { apply (forecast_loop_spec items [] [] df); [reflexivity | exact Edf]. }
  unfold summaries. apply summaries_loop_completes.
  subst df. rewrite firstn_map. apply Forall_map_of with (P := fun key => In key (dates items)).
  - intros key Hin. simpl. exact (day_of_completes k items key Hset Hk Hlen Hwf Hin).
  - apply Forall_forall. intros key Hin. exact (In_firstn _ _ _ Hin).
Qed.
End Completion.

(** C4. The aggregator groups the samples by the calendar date of their
    timestamp and emits one summary per date, in the order in which the input
    first shows each date, for the first 7 distinct dates.  Whenever the
    aggregation of a sequence of samples completes, every sample has a date,
    the output holds, for each of the first 7 distinct dates in first-seen
    order, the summary computed from the samples of that date, and its date
    labels are those of these dates in that order; and on every sequence of
    well-formed samples, within the range of the floats, it completes. *)
Theorem aggregate_groups_by_date_in_order {RT : PyRuntime} (items : list json) :
  (forall out,
      aggregate items = Return out ->
      Forall (fun item => exists d, item_date item = Return d) items /\
      Forall2 (fun k s => summarise (day_of items k) = Return s)
              (firstn 7 (dates items)) out /\
      List.length out = Nat.min 7 (List.length (dates items)) /\
      map sm_date out = map (fun k => dd_date (day_of items k)) (firstn 7 (dates items))) /\
  (forall k,
      set_iter_ok RT -> rnd_faithful ->
      0 <= k -> k + Z.of_nat (List.length items) + 1 <= 1023 ->
      Forall (well_formed k) items ->
      exists out, aggregate items = Return out).
Proof.
  split.
  - intros out H. pose proof (aggregate_spec _ _ H) as F.
    split; [| split; [exact F | split]].
    + unfold aggregate in H. bind_inv H. exact (forecast_loop_dated _ _ _ Ha).
    + rewrite <- (Forall2_length F). apply length_firstn.
    + clear H. induction F as [| k s ks ss Hs _ IH]; simpl; [reflexivity |].
      destruct (summarise_date _ _ Hs) as [-> _]. rewrite IH. reflexivity.
  - intros k Hset Hrnd Hk Hlen Hwf.
    exact (aggregate_completes Hrnd k items Hset Hk Hlen Hwf).
Qed.

Section Views.

Context {RT : PyRuntime}.

(** ** The store *)

Lemma find_user_update_one (id : ObjectId) (f : user -> user) (l : list user) (u : user) :
  (forall x, u_id (f x) = u_id x) ->
  find (fun x => u_id x =? id) l = Some u ->
  find (fun x => u_id x =? id) (update_one id f l) = Some (f u).
Proof.
  intros Hf. induction l as [| x l IH]; simpl; [discriminate |].
  destruct (u_id x =? id) eqn:E; simpl.
  - intro H; injection H as <-. rewrite Hf, E. reflexivity.
  - rewrite E. exact IH.
Qed.

Lemma update_one_length (id : ObjectId) (f : user -> user) (l : list user) :
  List.length (update_one id f l) = List.length l.
Proof.
  induction l as [| x l IH]; simpl; [reflexivity |].
  destruct (u_id x =? id); simpl; [reflexivity | rewrite IH; reflexivity].
Qed.

(** ** Query recording *)

Lemma fetch_fails_None (requests_get : provider) (now : Z) (city : string) :
  fetch_fails requests_get now city ->
  get_current_weather requests_get now city = Return None.
Proof.
  unfold get_current_weather, try_except.
  intros [[r [Hr Hs]] | [e He]].
  - unfold get_current_weather_try. rewrite Hr; simpl.
    apply Z.eqb_neq in Hs. rewrite Hs. reflexivity.
  - rewrite He. reflexivity.
Qed.

(** C5. When the provider answers with a status other than 200, or the fetch
    raises (network, decoding, fields), [get_current_weather] returns [None],
    and the dashboard request of a logged-in user completes with the store as
    it was: no record is added to [weather_queries]. *)
Theorem failed_fetch_records_nothing (env : environment) (d : db) (s : session)
  (id : ObjectId) (u : user) :
  ss_user_id s = Some id ->
  find_user id d = Some u ->
  fetch_fails (requests_get env) (now env) (user_city u) ->
  get_current_weather (requests_get env) (now env) (user_city u) = Return None /\
  exists forecast, dashboard env d s = Return (d, s, RenderDashboard u None forecast).
Proof.
  intros Hs Hu Hf. pose proof (fetch_fails_None _ _ _ Hf) as Hn.
  split; [exact Hn |].
  destruct (get_weekly_forecast_returns (requests_get env) (user_city u)) as [fc Hfc].
  exists fc. unfold dashboard, login_required, dashboard_view, session_user_id.
  rewrite Hs; simpl. rewrite Hu. cbv zeta. rewrite Hn; simpl. rewrite Hfc; simpl.
  reflexivity.
Qed.

(** C1, as the code has it. A dashboard view of a logged-in user whose
    current-weather fetch succeeds appends to [weather_queries] one record with
    the user, the city, the time, the snapshot and the forecast; a lookup
    through [/api/weather/<city>] leaves the store as it was, whatever the
    fetch returns. *)
Theorem dashboard_records_fetch_api_does_not (env : environment) (d : db) (s : session) :
  (forall id u cw,
      ss_user_id s = Some id ->
      find_user id d = Some u ->
      get_current_weather (requests_get env) (now env) (user_city u) = Return (Some cw) ->
      exists forecast,
        get_weekly_forecast (requests_get env) (user_city u) = Return forecast /\
        dashboard env d s =
        Return ({| users := users d;
                   login_history := login_history d;
                   weather_queries :=
                     (weather_queries d ++
                        [{| wq_user_id := id;
                            wq_city := user_city u;
                            wq_query_time := now env;
                            wq_weather_data := cw;
                            wq_forecast := forecast |}])%list |},
                s, RenderDashboard u (Some cw) forecast)) /\
  (forall city d' s' resp,
      api_weather env city d s = Return (d', s', resp) -> d' = d).
Proof.
  split.
  - intros id u cw Hs Hu Hcw.
    destruct (get_weekly_forecast_returns (requests_get env) (user_city u)) as [fc Hfc].
    exists fc. split; [exact Hfc |].
    unfold dashboard, login_required, dashboard_view, session_user_id.
    rewrite Hs; simpl. rewrite Hu. cbv zeta. rewrite Hcw; simpl. rewrite Hfc; simpl.
    reflexivity.
  - intros city d' s' resp H.
    unfold api_weather, login_required, api_weather_view in H.
    destruct (ss_user_id s); [| injection H as <- _ _; reflexivity].
    bind_inv H. bind_inv H. injection H as <- _ _. reflexivity.
Qed.

(** ** Registration *)

Lemma find_some_of_In (p : user -> bool) (l : list user) (u : user) :
  In u l -> p u = true -> exists v, find p l = Some v.
Proof.
  induction l as [| x l IH]; simpl; [contradiction |].
  intros [-> | H] Hp.
  - rewrite Hp. eauto.
  - destruct (p x); [eauto | exact (IH H Hp)].
Qed.

Lemma option_eqb_refl (a : option string) : option_eqb a a = true.
Proof. destruct a; simpl; [apply String.eqb_refl | reflexivity]. Qed.

Lemma option_eqb_eq (a b : option string) : option_eqb a b = true <-> a = b.
Proof.
  destruct a, b; simpl; split; intro H; try discriminate; try reflexivity.
  - apply String.eqb_eq in H; congruence.
  - injection H as ->. apply String.eqb_refl.
Qed.

(** A registration that went through left a user of that name in the store. *)
Lemma register_leaves_username (env : environment) (r : request) (d d' : db)
  (s s' : session) :
  method r = "POST" ->
  register env r d s = Return (d', s', Redirect "login") ->
  exists u, In u (users d') /\ u_username u = form_get r "username".
Proof.
  intros Hm H. unfold register in H. rewrite Hm in H. simpl in H.
  destruct (find _ (users d)); [discriminate H |].
  bind_inv H. injection H as <- _.
  eexists; split; [simpl; apply in_or_app; right; left; reflexivity | reflexivity].
Qed.

Lemma register_duplicate (env : environment) (r : request) (d : db) (s : session) (u : user) :
  method r = "POST" ->
  In u (users d) ->
  u_username u = form_get r "username" \/ u_email u = form_get r "email" ->
  register env r d s =
  Return (d, flash "Username or email already exists" "danger" s, Redirect "register").
Proof.
  intros Hm Hin Hdup. unfold register. rewrite Hm. simpl.
  destruct (find_some_of_In
              (fun x => option_eqb (u_username x) (form_get r "username")
                        || option_eqb (u_email x) (form_get r "email")) _ _ Hin) as [v Hv].
  - apply orb_true_iff. destruct Hdup as [E | E]; [left | right];
      apply option_eqb_eq; exact E.
  - rewrite Hv. reflexivity.
Qed.

(** C6. A registration with a username or an email that a stored user already
    has fails with the duplicate message and leaves the store as it was; so
    when a registration went through, a second one with the same username
    fails with the duplicate message and adds no record; and a registration
    never changes the identity held by the session. *)
Theorem register_rejects_duplicates (env : environment) (r : request) (d : db) (s : session) :
  method r = "POST" ->
  (forall u, In u (users d) ->
             u_username u = form_get r "username" \/ u_email u = form_get r "email" ->
             register env r d s =
             Return (d, flash "Username or email already exists" "danger" s,
                     Redirect "register")) /\
  (forall d1 s1 env2 r2 s2,
      register env r d s = Return (d1, s1, Redirect "login") ->
      method r2 = "POST" ->
      form_get r2 "username" = form_get r "username" ->
      List.length (users d1) = S (List.length (users d)) /\
      register env2 r2 d1 s2 =
      Return (d1, flash "Username or email already exists" "danger" s2,
              Redirect "register")) /\
  (forall d1 s1 resp,
      register env r d s = Return (d1, s1, resp) ->
      ss_user_id s1 = ss_user_id s /\ ss_username s1 = ss_username s /\
      ss_city s1 = ss_city s).
Proof.
  intro Hm. split; [| split].
  - intros u Hin Hdup. exact (register_duplicate env r d s u Hm Hin Hdup).
  - intros d1 s1 env2 r2 s2 H Hm2 Hname.
    destruct (register_leaves_username _ _ _ _ _ _ Hm H) as [u [Hin Hu]].
    split.
    + unfold register in H. rewrite Hm in H. simpl in H.
      destruct (find _ (users d)); [discriminate H |].
      bind_inv H. injection H as <- _. simpl.
      rewrite length_app; simpl. lia.
    + apply (register_duplicate env2 r2 d1 s2 u Hm2 Hin).
      left. rewrite Hname. exact Hu.
  - intros d1 s1 resp H. unfold register in H. rewrite Hm in H. simpl in H.
    destruct (find _ (users d)).
    + injection H as _ <- _. repeat split.
    + bind_inv H. injection H as _ <- _. repeat split.
Qed.

(** ** City and preferences *)

(** C9. When the [city] field of a [POST /update_city] of a logged-in user is
    absent or empty, the store and the session (its city with it) are left as
    they were, and the response is the redirect to the dashboard. *)
Theorem update_city_without_city (r : request) (d : db) (s : session) :
  ss_user_id s <> None ->
  form_get r "city" = None \/ form_get r "city" = Some "" ->
  update_city r d s = Return (d, s, Redirect "dashboard").
Proof.
  intros Hs Hc. unfold update_city, login_required, update_city_view.
  destruct (ss_user_id s) as [id |]; [| congruence].
  destruct Hc as [-> | ->]; reflexivity.
Qed.

(** C8, as the code has it. After a [POST /update_preferences] of a logged-in
    user whose document is in the store, the stored [preferences.units] of that
    user is the [units] field of the form as it was sent, [metric] when the
    field is absent, and the response is the redirect to the profile. *)
Theorem update_preferences_stores_units_field (r : request) (d : db) (s : session)
  (id : ObjectId) (u : user) :
  ss_user_id s = Some id ->
  find_user id d = Some u ->
  exists d' s' u',
    update_preferences r d s = Return (d', s', Redirect "profile") /\
    find_user id d' = Some u' /\
    units (u_preferences u') = form_get_default r "units" "metric" /\
    List.length (users d') = List.length (users d).
Proof.
  intros Hs Hu.
  unfold update_preferences, login_required, update_preferences_view, session_user_id.
  rewrite Hs; simpl.
  eexists _, _, _. split; [reflexivity |]. split; [| split].
  - unfold find_user, with_users; simpl.
    apply find_user_update_one; [intro x; reflexivity | exact Hu].
  - reflexivity.
  - simpl. apply update_one_length.
Qed.

End Views.

(** * Further properties *)

(** ** The extremes of a day *)

Lemma max_loop_upper (t : list json) : forall (m0 m : json) (a0 : num),
  for_each max_step t m0 = Return m ->
  as_num m0 = Some a0 -> float_of_num a0 <> FNaN ->
  exists a, as_num m = Some a /\
            forall x n, In x (m0 :: t) -> as_num x = Some n -> float_of_num n <> FNaN ->
                        fle (float_of_num n) (float_of_num a).
Proof.
  induction t as [| item t IH]; simpl; intros m0 m a0 H H0 Hn.
  - injection H as <-. exists a0; split; [exact H0 |].
    intros x n [<- | []] Hx Hnn. replace n with a0 by congruence. apply fle_refl; exact Hn.
  - bind_inv H. unfold max_step, py_gt, py_lt in Ha.
    rewrite H0 in Ha. destruct (as_num item) as [b |] eqn:Hb; [| discriminate Ha].
    simpl in Ha. injection Ha as <-.
    destruct (num_lt a0 b) eqn:L.
    + apply float_lt_fle in L.
      destruct (IH _ _ _ H Hb (fle_not_nan_r _ _ L)) as [a1 [H1 H2]].
      exists a1; split; [exact H1 |].
      intros x n [<- | Hin] Hx Hnn.
      * replace n with a0 by congruence.
        apply (fle_trans _ _ _ L). apply (H2 item b); [left; reflexivity | exact Hb |].
        exact (fle_not_nan_r _ _ L).
      * exact (H2 x n Hin Hx Hnn).
    + destruct (IH _ _ _ H H0 Hn) as [a1 [H1 H2]].
      exists a1; split; [exact H1 |].
      intros x n [<- | [<- | Hin]] Hx Hnn.
      * apply (H2 m0 n); [left; reflexivity | exact Hx | exact Hnn].
      * replace n with b in * by congruence.
        apply fle_trans with (float_of_num a0).
        -- apply float_nlt_fle; assumption.
        -- apply (H2 m0 a0); [left; reflexivity | exact H0 | exact Hn].
      * apply (H2 x n); [right; exact Hin | exact Hx | exact Hnn].
Qed.

Lemma min_loop_lower (t : list json) : forall (m0 m : json) (a0 : num),
  for_each min_step t m0 = Return m ->
  as_num m0 = Some a0 -> float_of_num a0 <> FNaN ->
  exists a, as_num m = Some a /\
            forall x n, In x (m0 :: t) -> as_num x = Some n -> float_of_num n <> FNaN ->
                        fle (float_of_num a) (float_of_num n).
Proof.
  induction t as [| item t IH]; simpl; intros m0 m a0 H H0 Hn.
  - injection H as <-. exists a0; split; [exact H0 |].
    intros x n [<- | []] Hx Hnn. replace n with a0 by congruence. apply fle_refl; exact Hn.
  - bind_inv H. unfold min_step, py_lt in Ha.
    rewrite H0 in Ha. destruct (as_num item) as [b |] eqn:Hb; [| discriminate Ha].
    simpl in Ha. injection Ha as <-.
    destruct (num_lt b a0) eqn:L.
    + apply float_lt_fle in L.
      destruct (IH _ _ _ H Hb (fle_not_nan_l _ _ L)) as [a1 [H1 H2]].
      exists a1; split; [exact H1 |].
      intros x n [<- | Hin] Hx Hnn.
      * replace n with a0 by congruence.
        apply fle_trans with (float_of_num b); [| exact L].
        apply (H2 item b); [left; reflexivity | exact Hb |].
        exact (fle_not_nan_l _ _ L).
      * exact (H2 x n Hin Hx Hnn).
    + destruct (IH _ _ _ H H0 Hn) as [a1 [H1 H2]].
      exists a1; split; [exact H1 |].
      intros x n [<- | [<- | Hin]] Hx Hnn.
      * apply (H2 m0 n); [left; reflexivity | exact Hx | exact Hnn].
      * replace n with b in * by congruence.
        apply fle_trans with (float_of_num a0).
        -- apply (H2 m0 a0); [left; reflexivity | exact H0 | exact Hn].
        -- apply float_nlt_fle; assumption.
      * apply (H2 x n); [right; exact Hin | exact Hx | exact Hnn].
Qed.

Lemma max_loop_in (t : list json) : forall m0 m : json,
  for_each max_step t m0 = Return m -> In m (m0 :: t).
Proof.
  induction t as [| item t IH]; simpl; intros m0 m H.
  - injection H as <-. left; reflexivity.
  - bind_inv H. unfold max_step in Ha. bind_inv Ha. injection Ha as <-.
    destruct (IH _ _ H) as [E | Hin]; [| right; right; exact Hin].
    destruct a0; [right; left | left]; exact E.
Qed.

Lemma min_loop_in (t : list json) : forall m0 m : json,
  for_each min_step t m0 = Return m -> In m (m0 :: t).
Proof.
  induction t as [| item t IH]; simpl; intros m0 m H.
  - injection H as <-. left; reflexivity.
  - bind_inv H. unfold min_step in Ha. bind_inv Ha. injection Ha as <-.
    destruct (IH _ _ H) as [E | Hin]; [| right; right; exact Hin].
    destruct a0; [right; left | left]; exact E.
Qed.

(** When [round(max(l))] succeeds, the first item of [l] is a number other
    than NaN. *)
Lemma py_max_first_number (x : json) (t : list json) (mx : json) (rx : Z) :
  py_max (x :: t) = Return mx -> py_round mx = Return rx ->
  exists a0, as_num x = Some a0 /\ float_of_num a0 <> FNaN.
Proof.
  simpl. intros Hmx Hrx.
  destruct (py_round_value _ _ Hrx) as [ax [qx [Ax [Fx _]]]].
  destruct (as_num x) as [a0 |] eqn:E0.
  - exists a0; split; [reflexivity |]. intro F0.
    assert (mx = x) by (apply (max_loop_stuck _ _ _ Hmx); rewrite E0; exact F0).
    subst mx. congruence.
  - assert (mx = x) by (apply (max_loop_stuck _ _ _ Hmx); rewrite E0; exact I).
    subst mx. congruence.
Qed.

Section MoreAggregator.

Context {RT : PyRuntime}.

Lemma summarise_temps (day : day_data) (s : summary) :
  summarise day = Return s ->
  exists mx mn,
    py_max (dd_temps day) = Return mx /\ py_round mx = Return (sm_temp_max s) /\
    py_min (dd_temps day) = Return mn /\ py_round mn = Return (sm_temp_min s).
Proof.
  unfold summarise; intro H.
  bind_inv H. bind_inv Ha. rename a0 into mx, Ha0 into Hmx, Ha into Hrx.
  bind_inv H. bind_inv Ha. rename a1 into mn, Ha0 into Hmn, Ha into Hrn.
  do 3 bind_inv H. injection H as <-. simpl.
  exists mx, mn. auto.
Qed.

Lemma summarise_between (day : day_data) (s : summary) :
  summarise day = Return s ->
  (forall x n q, In x (dd_temps day) -> as_num x = Some n -> float_of_num n = FFin q ->
                 sm_temp_min s <= round_half_even q <= sm_temp_max s) /\
  (exists x, In x (dd_temps day) /\ py_round x = Return (sm_temp_max s)) /\
  (exists x, In x (dd_temps day) /\ py_round x = Return (sm_temp_min s)).
Proof.
  intro H. destruct (summarise_temps _ _ H) as [mx [mn [Hmx [Hrx [Hmn Hrn]]]]].
  destruct (dd_temps day) as [| x0 t] eqn:Et; [discriminate Hmx |].
  destruct (py_max_first_number _ _ _ _ Hmx Hrx) as [a0 [E0 N0]].
  simpl in Hmx, Hmn.
  destruct (max_loop_upper _ _ _ _ Hmx E0 N0) as [ax [Ax Ux]].
  destruct (min_loop_lower _ _ _ _ Hmn E0 N0) as [an [An Ln]].
  destruct (py_round_value _ _ Hrx) as [ax' [qx [Ax' [Fx Ex]]]].
  destruct (py_round_value _ _ Hrn) as [an' [qn [An' [Fn En]]]].
  replace ax' with ax in * by congruence. replace an' with an in * by congruence.
  split; [| split].
  - intros x n q Hin Hx Hq.
    assert (Hnn : float_of_num n <> FNaN) by congruence.
    pose proof (Ux x n Hin Hx Hnn) as U. pose proof (Ln x n Hin Hx Hnn) as L.
    rewrite Hq, Fx in U. rewrite Hq, Fn in L. simpl in U, L.
    rewrite Ex, En. split; apply round_half_even_mono; assumption.
  - exists mx; split; [exact (max_loop_in _ _ _ Hmx) | exact Hrx].
  - exists mn; split; [exact (min_loop_in _ _ _ Hmn) | exact Hrn].
Qed.

(** X1. In every emitted summary, the rounded temperature of each finite sample
    of the day lies between [temp_min] and [temp_max], and both are the
    rounded temperatures of samples of that day. *)
Theorem temperatures_lie_between_the_extremes (items : list json) (out : list summary) :
  aggregate items = Return out ->
  Forall2 (fun k s =>
             (forall x n q, In x (dd_temps (day_of items k)) ->
                            as_num x = Some n -> float_of_num n = FFin q ->
                            sm_temp_min s <= round_half_even q <= sm_temp_max s) /\
             (exists x, In x (dd_temps (day_of items k)) /\
                        py_round x = Return (sm_temp_max s)) /\
             (exists x, In x (dd_temps (day_of items k)) /\
                        py_round x = Return (sm_temp_min s)))
          (firstn 7 (dates items)) out.
Proof.
  intro H. apply aggregate_spec in H.
  eapply Forall2_impl; [| exact H].
  intros k s Hs. exact (summarise_between _ _ Hs).
Qed.

(** X2. A date with a single sample has [temp_max = temp_min], the rounded
    temperature of that sample. *)
Theorem single_sample_day (items : list json) (out : list summary) :
  aggregate items = Return out ->
  Forall2 (fun k s =>
             forall item, group k items = [item] ->
                          py_round (value (item_temp item)) = Return (sm_temp_max s) /\
                          sm_temp_min s = sm_temp_max s)
          (firstn 7 (dates items)) out.
Proof.
  intro H. apply aggregate_spec in H.
  eapply Forall2_impl; [| exact H].
  intros k s Hs item Hg.
  destruct (summarise_temps _ _ Hs) as [mx [mn [Hmx [Hrx [Hmn Hrn]]]]].
  unfold day_of in Hmx, Hmn. cbn [dd_temps] in Hmx, Hmn. rewrite Hg in Hmx, Hmn.
  simpl in Hmx, Hmn. injection Hmx as <-. injection Hmn as <-.
  split; [exact Hrx | congruence].
Qed.

(** ** A description that has the majority *)



(** ** The label and the icon of a day *)

Lemma forecast_step_first_icon (done : list json) (item : json) (df df' : daily) :
  df = map (fun k => (k, day_of done k)) (dates done) ->
  (forall k first rest, group k done = first :: rest ->
                        exists icon, item_icon first = Return icon) ->
  forecast_step df item = Return df' ->
  forall k first rest, group k (done ++ [item]) = first :: rest ->
                       exists icon, item_icon first = Return icon.
Proof.
  intros Hdf Inv H k first rest Hg.
  rewrite group_snoc in Hg.
  destruct (group k done) as [| x g] eqn:Eg.
  - simpl in Hg. destruct (String.eqb k (item_key item)) eqn:Ek; [| discriminate Hg].
    injection Hg as <- _. apply String.eqb_eq in Ek.
    unfold forecast_step in H. bind_inv H. rename a into d. cbv zeta in H.
    assert (Hkey : item_key item = strftime d "%Y-%m-%d")
      by (unfold item_key; rewrite Ha; reflexivity).
    rewrite <- Hkey in H. bind_inv H. clear H.
    subst df. rewrite has_key_map in Ha0.
    destruct (existsb (String.eqb (item_key item)) (dates done)) eqn:E.
    + apply group_nonempty in E. rewrite <- Ek in E. contradiction.
    + bind_inv Ha0. eauto.
  - simpl in Hg. injection Hg as <- _. exact (Inv k x g Eg).
Qed.

Lemma forecast_loop_first_icon (rest : list json) : forall (done : list json) (df df' : daily),
  df = map (fun k => (k, day_of done k)) (dates done) ->
  (forall k first more, group k done = first :: more ->
                        exists icon, item_icon first = Return icon) ->
  for_each forecast_step rest df = Return df' ->
  forall k first more, group k (done ++ rest) = first :: more ->
                       exists icon, item_icon first = Return icon.
Proof.
  induction rest as [| item rest IH]; simpl; intros done df df' Hdf Inv H.
  - rewrite app_nil_r. exact Inv.
  - bind_inv H. rename a into df1.
    replace (done ++ item :: rest)%list with ((done ++ [item]) ++ rest)%list
      by (rewrite <- app_assoc; reflexivity).
    apply (IH _ df1 df'); [| | exact H].
    + exact (forecast_step_spec _ _ _ _ Hdf Ha).
    + exact (forecast_step_first_icon _ _ _ _ Hdf Inv Ha).
Qed.

Lemma In_dates_group (items : list json) (k : string) :
  In k (dates items) -> exists first more, group k items = first :: more.
Proof.
  intro Hin.
  assert (Hne : group k items <> []).
  { apply group_nonempty. apply existsb_exists. exists k; split;
      [exact Hin | apply String.eqb_refl]. }
  destruct (group k items) as [| x g]; [congruence | eauto].
Qed.

(** X4. The date label and the icon of every emitted summary are those of the
    first sample of its date, whatever the later samples of that date carry. *)
Theorem label_and_icon_of_first_sample (items : list json) (out : list summary) :
  aggregate items = Return out ->
  Forall2 (fun k s =>
             exists first more,
               group k items = first :: more /\
               sm_date s = item_label first /\
               item_icon first = Return (sm_icon s))
          (firstn 7 (dates items)) out.
Proof.
  intro H. pose proof (aggregate_spec _ _ H) as F.
  unfold aggregate in H. bind_inv H. rename a into df.
  assert (Hicon : forall k first more, group k items = first :: more ->
                                       exists icon, item_icon first = Return icon).
  { apply (forecast_loop_first_icon items [] [] df); [reflexivity | | exact Ha].
    intros k first more Hg. discriminate Hg. }
  clear H Ha.
  assert (Hk : Forall (fun k => In k (dates items)) (firstn 7 (dates items))).
  { apply Forall_forall. intros k Hin. exact (In_firstn _ _ _ Hin). }
  induction F as [| k s ks ss Hs _ IH]; constructor.
  - inversion Hk as [| ? ? Hin _]; subst.
    destruct (In_dates_group _ _ Hin) as [first [more Hg]].
    destruct (Hicon _ _ _ Hg) as [icon Hi].
    destruct (summarise_date _ _ Hs) as [Hd Hic].
    exists first, more. split; [exact Hg |].
    unfold day_of in Hd, Hic. cbn [dd_date dd_icon] in Hd, Hic. rewrite Hg in Hd, Hic.
    split; [exact Hd |]. rewrite Hi in Hic. simpl in Hic. rewrite Hic. exact Hi.
  - apply IH. inversion Hk; assumption.
Qed.

(** ** Empty and unreadable input *)

(** X5. The aggregation of a sequence of samples, when it completes, is empty
    exactly when the sequence is. *)
Theorem forecast_empty_iff_no_sample (items : list json) (out : list summary) :
  aggregate items = Return out -> (out = [] <-> items = []).
Proof.
  intro H. apply aggregate_spec in H. apply Forall2_length in H.
  rewrite length_firstn in H.
  split; intro E.
  - subst out. simpl in H. destruct items as [| x t]; [reflexivity |].
    unfold dates in H. simpl in H. lia.
  - subst items. simpl in H. destruct out; [reflexivity | simpl in H; lia].
Qed.

Lemma forecast_step_unreadable (item : json) (df : daily) :
  unreadable item -> exists e, forecast_step df item = Raise e.
Proof.
  intro H. unfold forecast_step.
  destruct (item_date item) as [d | e] eqn:Ed; cbn [bind]; [| eauto]. cbv zeta.
  destruct (has_key (strftime d "%Y-%m-%d") df); cbn [bind].
  - destruct (item_temp item) eqn:Et; cbn [bind]; [| eauto].
    destruct (item_description item) eqn:Es; cbn [bind]; [| eauto].
    destruct (item_humidity item) eqn:Eh; cbn [bind]; [| eauto].
    destruct (item_wind item) eqn:Ew; cbn [bind]; [| eauto].
    destruct H as [[e H] | [[e H] | [[e H] | [[e H] | [e H]]]]]; congruence.
  - destruct (item_icon item) eqn:Ei; cbn [bind]; [| eauto].
    destruct (item_temp item) eqn:Et; cbn [bind]; [| eauto].
    destruct (item_description item) eqn:Es; cbn [bind]; [| eauto].
    destruct (item_humidity item) eqn:Eh; cbn [bind]; [| eauto].
    destruct (item_wind item) eqn:Ew; cbn [bind]; [| eauto].
    destruct H as [[e H] | [[e H] | [[e H] | [[e H] | [e H]]]]]; congruence.
Qed.

Lemma forecast_loop_unreadable (items : list json) (item : json) : forall df : daily,
  In item items -> unreadable item ->
  exists e, for_each forecast_step items df = Raise e.
Proof.
  induction items as [| x items IH]; simpl; intros df Hin Hu; [contradiction |].
  destruct Hin as [-> | Hin].
  - destruct (forecast_step_unreadable item df Hu) as [e He]. rewrite He. simpl. eauto.
  - destruct (forecast_step df x) as [df1 | e]; simpl; [| eauto].
    exact (IH df1 Hin Hu).
Qed.

(** X6. One sample whose timestamp, temperature, description, humidity or wind
    speed cannot be read empties the whole forecast, wherever it stands in the
    list and however many readable samples surround it. *)
Theorem one_unreadable_sample_empties_the_forecast (requests_get : provider) (city : string)
  (r : response) (data : json) (items : list json) (item : json) :
  requests_get (WEATHER_BASE_URL ++ "/forecast") city = Return r ->
  status_code r = 200 ->
  response_json r = Return data ->
  getitem data "list" = Return (JList items) ->
  In item items -> unreadable item ->
  get_weekly_forecast requests_get city = Return [].
Proof.
  intros Hr Hs Hj Hl Hin Hu.
  unfold get_weekly_forecast, get_weekly_forecast_try.
  rewrite Hr. cbn [bind]. rewrite Hs. simpl. rewrite Hj. cbn [bind].
  rewrite Hl. cbn [bind iterate]. unfold aggregate.
  destruct (forecast_loop_unreadable items item [] Hin Hu) as [e He].
  rewrite He. reflexivity.
Qed.

(** ** The snapshot of a well-shaped document *)

End MoreAggregator.

Section MoreViews.

Context {RT : PyRuntime}.

(** ** The guard *)

Lemma guard_redirects (env : environment) (e : endpoint) (r : request) (d : db)
  (s : session) :
  protected e = true ->
  ss_user_id s = None ->
  dispatch env e r d s =
  Return (d, flash "Please login to access this page" "warning" s,
          Response (Redirect "login")).
Proof.
  intros Hp Hs.
  destruct e; try discriminate Hp; simpl;
    unfold as_page, dashboard, update_city, api_weather, update_preferences,
      weather_history, profile, login_required, login_required_page;
    rewrite Hs; reflexivity.
Qed.

(** X8. A request without a logged-in session to any endpoint decorated with
    [login_required] is answered by the redirect to the login page with the
    warning message, and leaves the store as it was. *)
Theorem anonymous_requests_are_sent_to_login (env : environment) (e : endpoint)
  (r : request) (d : db) (s : session) :
  protected e = true ->
  ss_user_id s = None ->
  dispatch env e r d s =
  Return (d, flash "Please login to access this page" "warning" s,
          Response (Redirect "login")).
Proof. exact (guard_redirects env e r d s). Qed.

(** ** How a request changes the store *)

Lemma update_one_ids (id : ObjectId) (f : user -> user) (l : list user) :
  (forall u, u_id (f u) = u_id u) ->
  map u_id (update_one id f l) = map u_id l.
Proof.
  intro Hf. induction l as [| x l IH]; simpl; [reflexivity |].
  destruct (u_id x =? id); simpl; [rewrite Hf; reflexivity | rewrite IH; reflexivity].
Qed.

Lemma update_one_field {A : Type} (g : user -> A) (id : ObjectId) (f : user -> user)
  (l : list user) :
  (forall u, g (f u) = g u) ->
  map g (update_one id f l) = map g l.
Proof.
  intro Hf. induction l as [| x l IH]; simpl; [reflexivity |].
  destruct (u_id x =? id); simpl; [rewrite Hf; reflexivity | rewrite IH; reflexivity].
Qed.

Lemma register_step (env : environment) (r : request) (d d' : db) (s s' : session)
  (resp : http_response) :
  register env r d s = Return (d', s', resp) -> store_step d d'.
Proof.
  unfold register. destruct (String.eqb (method r) "POST").
  2: { intro H; injection H as <- _ _. constructor. }
  destruct (find _ (users d)) eqn:E.
  - intro H; injection H as <- _ _. constructor.
  - intro H. bind_inv H. injection H as <- _ _.
    apply step_register. intros v Hv.
    pose proof (find_none _ _ E v Hv) as Hn. simpl in Hn.
    apply orb_false_iff in Hn. destruct Hn as [H1 H2]. simpl.
    split; intro Heq.
    + rewrite Heq, option_eqb_refl in H1. discriminate.
    + rewrite Heq, option_eqb_refl in H2. discriminate.
Qed.

Lemma login_step (env : environment) (r : request) (d d' : db) (s s' : session)
  (resp : http_response) :
  login env r d s = Return (d', s', resp) -> store_step d d'.
Proof.
  unfold login. destruct (String.eqb (method r) "POST").
  2: { intro H; injection H as <- _ _. constructor. }
  intro H. bind_inv H. rename a into ok.
  destruct (find _ (users d)) as [u |] eqn:E.
  - destruct ok.
    + injection H as <- _ _. apply step_login.
      exists u; split; [exact (proj1 (find_some _ _ E)) | reflexivity].
    + injection H as <- _ _. constructor.
  - injection H as <- _ _. constructor.
Qed.

Lemma dashboard_step (env : environment) (d d' : db) (s s' : session)
  (resp : http_response) :
  dashboard env d s = Return (d', s', resp) -> store_step d d'.
Proof.
  unfold dashboard, login_required, dashboard_view, session_user_id.
  destruct (ss_user_id s) as [id |].
  2: { intro H; injection H as <- _ _. constructor. }
  simpl. destruct (find_user id d) as [u |] eqn:E; [| discriminate].
  cbv zeta. intro H. bind_inv H. rename a into cw. bind_inv H. rename a into fc.
  injection H as <- _ _.
  destruct cw as [cw |]; [| constructor].
  apply step_query. exists u; split.
  - exact (proj1 (find_some _ _ E)).
  - simpl. apply find_some in E. destruct E as [_ E]. apply Z.eqb_eq in E. exact E.
Qed.

Lemma update_city_step (r : request) (d d' : db) (s s' : session) (resp : http_response) :
  update_city r d s = Return (d', s', resp) -> store_step d d'.
Proof.
  unfold update_city, login_required, update_city_view, session_user_id.
  destruct (ss_user_id s) as [id |].
  2: { intro H; injection H as <- _ _. constructor. }
  destruct (truthy (form_get r "city")).
  2: { intro H; injection H as <- _ _. constructor. }
  destruct (form_get r "city") as [c |].
  2: { intro H; injection H as <- _ _. constructor. }
  simpl. intro H; injection H as <- _ _.
  apply step_update. intro u. repeat split.
Qed.

Lemma update_preferences_step (r : request) (d d' : db) (s s' : session)
  (resp : http_response) :
  update_preferences r d s = Return (d', s', resp) -> store_step d d'.
Proof.
  unfold update_preferences, login_required, update_preferences_view, session_user_id.
  destruct (ss_user_id s) as [id |].
  2: { intro H; injection H as <- _ _. constructor. }
  simpl. intro H; injection H as <- _ _.
  apply step_update. intro u. repeat split.
Qed.

Lemma as_page_inv (v : view) (d d' : db) (s s' : session) (p : page) :
  as_page v d s = Return (d', s', p) ->
  exists resp, v d s = Return (d', s', resp) /\ p = Response resp.
Proof.
  unfold as_page. intro H. bind_inv H. destruct a as [[d1 s1] resp]. simpl in H.
  injection H as <- <- <-. eauto.
Qed.

(** Every request changes the store in one of the five ways of [store_step]. *)
Lemma dispatch_step (env : environment) (e : endpoint) (r : request) (d d' : db)
  (s s' : session) (p : page) :
  dispatch env e r d s = Return (d', s', p) -> store_step d d'.
Proof.
  destruct e; simpl; intro H.
  - apply as_page_inv in H. destruct H as [resp [H _]].
    unfold index in H. destruct (ss_user_id s); injection H as <- _ _; constructor.
  - apply as_page_inv in H. destruct H as [resp [H _]]. exact (register_step _ _ _ _ _ _ _ H).
  - apply as_page_inv in H. destruct H as [resp [H _]]. exact (login_step _ _ _ _ _ _ _ H).
  - apply as_page_inv in H. destruct H as [resp [H _]].
    unfold logout in H. injection H as <- _ _. constructor.
  - apply as_page_inv in H. destruct H as [resp [H _]]. exact (dashboard_step _ _ _ _ _ _ H).
  - apply as_page_inv in H. destruct H as [resp [H _]]. exact (update_city_step _ _ _ _ _ _ H).
  - unfold weather_history, login_required_page, weather_history_view, session_user_id in H.
    destruct (ss_user_id s); simpl in H; injection H as <- _ _; constructor.
  - apply as_page_inv in H. destruct H as [resp [H _]].
    unfold api_weather, login_required, api_weather_view in H.
    destruct (ss_user_id s); [| injection H as <- _ _; constructor].
    bind_inv H. bind_inv H. injection H as <- _ _. constructor.
  - unfold profile, login_required_page, profile_view, session_user_id in H.
    destruct (ss_user_id s); simpl in H; injection H as <- _ _; constructor.
  - apply as_page_inv in H. destruct H as [resp [H _]].
    exact (update_preferences_step _ _ _ _ _ _ H).
Qed.

(** ** What every request keeps *)

Lemma NoDup_snoc {A : Type} (l : list A) (x : A) :
  NoDup l -> ~ In x l -> NoDup (l ++ [x]).
Proof.
  induction l as [| y l IH]; simpl; intros Hl Hx.
  - constructor; [intros [] | constructor].
  - inversion Hl as [| ? ? Hy Hl']; subst. constructor.
    + intro Hin. apply in_app_or in Hin. destruct Hin as [Hin | [E | []]].
      * exact (Hy Hin).
      * apply Hx. left. symmetry. exact E.
    + apply IH; [exact Hl' |]. intro Hin. apply Hx. right. exact Hin.
Qed.

Lemma store_step_keeps_users (d d' : db) :
  store_step d d' ->
  forall u, In u (users d) -> exists u', In u' (users d') /\ u_id u' = u_id u.
Proof.
  intros H u Hu. destruct H as [| v Hv | ev Hev | q Hq | id f Hf]; simpl.
  - eauto.
  - exists u; split; [apply in_or_app; left; exact Hu | reflexivity].
  - eauto.
  - eauto.
  - assert (Hin : In (u_id u) (map u_id (update_one id f (users d)))).
    { rewrite update_one_ids by (intro x; exact (proj1 (Hf x))).
      apply in_map. exact Hu. }
    apply in_map_iff in Hin. destruct Hin as [u' [E Hin]]. eauto.
Qed.

(** X9. No request deletes anything: after any request the weather queries and
    the login events of the store are those it held, followed by the new ones,
    and the identifiers of the users are those it held, followed by the new
    ones. *)
Theorem the_store_only_grows (env : environment) (e : endpoint) (r : request)
  (d d' : db) (s s' : session) (p : page) :
  dispatch env e r d s = Return (d', s', p) ->
  (exists l, weather_queries d' = (weather_queries d ++ l)%list) /\
  (exists l, login_history d' = (login_history d ++ l)%list) /\
  (exists l, map u_id (users d') = (map u_id (users d) ++ l)%list).
Proof.
  intro H. apply dispatch_step in H.
  destruct H as [| v Hv | ev Hev | q Hq | id f Hf]; simpl.
  - repeat split; exists []; rewrite app_nil_r; reflexivity.
  - repeat split; [exists [] | exists [] | exists [u_id v]];
      rewrite ?app_nil_r, ?map_app; reflexivity.
  - repeat split; [exists [] | exists [ev] | exists []]; rewrite ?app_nil_r; reflexivity.
  - repeat split; [exists [q] | exists [] | exists []]; rewrite ?app_nil_r; reflexivity.
  - repeat split; [exists [] | exists [] | exists []]; rewrite ?app_nil_r; try reflexivity.
    apply update_one_ids. intro x; exact (proj1 (Hf x)).
Qed.

(** X10. Names and emails stay unique: when no two users of the store share a
    name and no two share an email, the same holds after any request. *)
Theorem usernames_and_emails_stay_unique (env : environment) (e : endpoint) (r : request)
  (d d' : db) (s s' : session) (p : page) :
  unique_users d ->
  dispatch env e r d s = Return (d', s', p) ->
  unique_users d'.
Proof.
  intros [Hn He] H. apply dispatch_step in H. unfold unique_users.
  destruct H as [| v Hv | ev Hev | q Hq | id f Hf]; simpl; auto.
  - rewrite !map_app. simpl. split; apply NoDup_snoc; try assumption.
    + intro Hin. apply in_map_iff in Hin. destruct Hin as [x [E Hx]].
      exact (proj1 (Hv x Hx) E).
    + intro Hin. apply in_map_iff in Hin. destruct Hin as [x [E Hx]].
      exact (proj2 (Hv x Hx) E).
  - rewrite !update_one_field; [auto | |]; intro x; apply (Hf x).
Qed.

(** X11. Every weather query and every login event of the store belongs to a
    stored user, and this holds again after any request. *)
Theorem records_keep_referring_to_users (env : environment) (e : endpoint) (r : request)
  (d d' : db) (s s' : session) (p : page) :
  references_users d ->
  dispatch env e r d s = Return (d', s', p) ->
  references_users d'.
Proof.
  intros [Hq Hl] H. apply dispatch_step in H.
  pose proof (store_step_keeps_users _ _ H) as Hkeep.
  assert (Hlift : forall id, (exists u, In u (users d) /\ u_id u = id) ->
                             exists u, In u (users d') /\ u_id u = id).
  { intros id [u [Hu E]]. destruct (Hkeep u Hu) as [u' [Hu' E']].
    exists u'; split; [exact Hu' | congruence]. }
  unfold references_users.
  destruct H as [| v Hv | ev Hev | q Hq' | id f Hf]; simpl in *.
  - split; assumption.
  - split; intros x Hx; apply Hlift; auto.
  - split; [intros x Hx; apply Hlift; auto |].
    intros x Hx. apply in_app_or in Hx. destruct Hx as [Hx | [<- | []]];
      apply Hlift; auto.
  - split; [| intros x Hx; apply Hlift; auto].
    intros x Hx. apply in_app_or in Hx. destruct Hx as [Hx | [<- | []]];
      apply Hlift; auto.
  - split; intros x Hx; apply Hlift; auto.
Qed.

(** ** Logging in and out *)

(** X12. A login changes the identity of the session only when the password of
    the form checks against the stored hash of the first user of that name:
    then the session holds the identifier, the name and the city of that user,
    one login event with the time and the address of the request is appended,
    and the answer is the redirect to the dashboard.  In every other case the
    identity of the session and the store are as they were. *)
Theorem login_needs_the_password (env : environment) (r : request) (d d' : db)
  (s s' : session) (resp : http_response) :
  login env r d s = Return (d', s', resp) ->
  (ss_user_id s' = ss_user_id s /\ ss_username s' = ss_username s /\
   ss_city s' = ss_city s /\ d' = d) \/
  (exists u p,
      method r = "POST" /\
      find (fun x => option_eqb (u_username x) (form_get r "username")) (users d) = Some u /\
      form_get r "password" = Some p /\
      check_password_hash (u_password u) p = true /\
      ss_user_id s' = Some (u_id u) /\
      ss_username s' = Some (u_username u) /\
      ss_city s' = Some (user_city u) /\
      login_history d' = (login_history d ++ [{| le_user_id := u_id u;
                                                 le_login_time := now env;
                                                 le_ip_address := remote_addr r |}])%list /\
      users d' = users d /\ weather_queries d' = weather_queries d /\
      resp = Redirect "dashboard").
Proof.
  unfold login. destruct (String.eqb (method r) "POST") eqn:Em.
  2: { intro H; injection H as <- <- _. left; auto. }
  apply String.eqb_eq in Em.
  intro H. bind_inv H. rename a into ok.
  destruct (find _ (users d)) as [u |] eqn:E.
  - destruct ok.
    + destruct (form_get r "password") as [p |] eqn:Ep; [| discriminate Ha].
      injection Ha as Hc. injection H as <- <- <-.
      right. exists u, p. repeat split; auto.
    + injection H as <- <- _. left; auto.
  - injection H as <- <- _. left; auto.
Qed.

(** X13. A login with an unknown name and a login with a known name and a wrong
    password are answered alike: the same message, the same page, the store
    and the session identity untouched. *)
Theorem failed_logins_look_alike (env : environment) (r1 r2 : request) (d : db)
  (s : session) (u : user) (p : string) :
  method r1 = "POST" -> method r2 = "POST" ->
  find (fun x => option_eqb (u_username x) (form_get r1 "username")) (users d) = None ->
  find (fun x => option_eqb (u_username x) (form_get r2 "username")) (users d) = Some u ->
  form_get r2 "password" = Some p ->
  check_password_hash (u_password u) p = false ->
  login env r1 d s = login env r2 d s /\
  login env r2 d s =
  Return (d, flash "Invalid username or password" "danger" s, RenderTemplate "login.html").
Proof.
  intros M1 M2 F1 F2 P2 C2. unfold login.
  rewrite M1, M2, F1, F2, P2, C2. simpl. split; reflexivity.
Qed.

Lemma find_none_weaker (p1 p2 : user -> bool) (l : list user) :
  (forall x, p2 x = true -> p1 x = true) -> find p1 l = None -> find p2 l = None.
Proof.
  intros Himp. induction l as [| x l IH]; simpl; [reflexivity |].
  destruct (p1 x) eqn:E1; [discriminate |].
  destruct (p2 x) eqn:E2; [rewrite (Himp x E2) in E1; discriminate | exact IH].
Qed.

Lemma find_app_none {A : Type} (p : A -> bool) (l1 l2 : list A) :
  find p l1 = None -> find p (l1 ++ l2) = find p l2.
Proof.
  induction l1 as [| x l1 IH]; simpl; [reflexivity |].
  destruct (p x); [discriminate | exact IH].
Qed.

(** X14. Who has registered can log in: after a registration that went through,
    a login with the same name and the same password succeeds, whatever the
    session, and the session then holds the identifier the store gave to the
    new user and the city of the registration form. *)
Theorem registered_user_can_log_in (env env2 : environment) (r r2 : request)
  (d d1 : db) (s s1 s2 : session) (name p : string) :
  hash_round_trip ->
  method r = "POST" -> method r2 = "POST" ->
  form_get r "username" = Some name -> form_get r "password" = Some p ->
  form_get r2 "username" = Some name -> form_get r2 "password" = Some p ->
  register env r d s = Return (d1, s1, Redirect "login") ->
  exists d2 s3,
    login env2 r2 d1 s2 = Return (d2, s3, Redirect "dashboard") /\
    ss_user_id s3 = Some (new_id env) /\
    ss_username s3 = Some (Some name) /\
    ss_city s3 = Some (form_get_default r "city" "Your city").
Proof.
  intros Hh Hm Hm2 Hn Hp Hn2 Hp2 H.
  unfold register in H. rewrite Hm in H. simpl in H.
  destruct (find _ (users d)) eqn:E; [discriminate H |].
  rewrite Hp in H. simpl in H. injection H as <- _.
  unfold login. rewrite Hm2. simpl. rewrite Hn2, Hp2.
  rewrite find_app_none.
  2: { rewrite <- Hn.
       apply (find_none_weaker
                (fun u => option_eqb (u_username u) (form_get r "username")
                          || option_eqb (u_email u) (form_get r "email"))); [| exact E].
       intros x Hx. rewrite Hx. reflexivity. }
  simpl. rewrite Hn. simpl. rewrite String.eqb_refl.
  cbn [u_password bind]. rewrite (Hh p). simpl.
  eexists _, _. split; [reflexivity |]. repeat split.
Qed.

(** X15. Only a login and a logout change the identity of the session: every
    other request leaves the identifier and the name it holds as they were. *)
Theorem only_login_and_logout_change_the_identity (env : environment) (e : endpoint)
  (r : request) (d d' : db) (s s' : session) (p : page) :
  e <> Login -> e <> Logout ->
  dispatch env e r d s = Return (d', s', p) ->
  ss_user_id s' = ss_user_id s /\ ss_username s' = ss_username s.
Proof.
  intros Hl Ho H. destruct e; try congruence; simpl in H.
  - apply as_page_inv in H. destruct H as [resp [H _]].
    unfold index in H. destruct (ss_user_id s) eqn:E; injection H as _ <- _; auto.
  - apply as_page_inv in H. destruct H as [resp [H _]].
    unfold register in H. destruct (String.eqb (method r) "POST").
    + destruct (find _ (users d)).
      * injection H as _ <- _. auto.
      * bind_inv H. injection H as _ <- _. auto.
    + injection H as _ <- _. auto.
  - apply as_page_inv in H. destruct H as [resp [H _]].
    unfold dashboard, login_required, dashboard_view, session_user_id in H.
    destruct (ss_user_id s) as [id |] eqn:E; [| injection H as _ <- _; auto].
    simpl in H. destruct (find_user id d); [| discriminate H].
    cbv zeta in H. do 2 bind_inv H. injection H as _ <- _. auto.
  - apply as_page_inv in H. destruct H as [resp [H _]].
    unfold update_city, login_required, update_city_view, session_user_id in H.
    destruct (ss_user_id s) as [id |] eqn:E; [| injection H as _ <- _; auto].
    destruct (truthy (form_get r "city")); [| injection H as _ <- _; auto].
    destruct (form_get r "city"); [| injection H as _ <- _; auto].
    simpl in H. injection H as _ <- _. auto.
  - unfold weather_history, login_required_page, weather_history_view, session_user_id in H.
    destruct (ss_user_id s) eqn:E; simpl in H; injection H as _ <- _; auto.
  - apply as_page_inv in H. destruct H as [resp [H _]].
    unfold api_weather, login_required, api_weather_view in H.
    destruct (ss_user_id s) eqn:E; [| injection H as _ <- _; auto].
    do 2 bind_inv H. injection H as _ <- _. auto.
  - unfold profile, login_required_page, profile_view, session_user_id in H.
    destruct (ss_user_id s) eqn:E; simpl in H; injection H as _ <- _; auto.
  - apply as_page_inv in H. destruct H as [resp [H _]].
    unfold update_preferences, login_required, update_preferences_view, session_user_id in H.
    destruct (ss_user_id s) eqn:E; [| injection H as _ <- _; auto].
    simpl in H. injection H as _ <- _. auto.
Qed.

(** X16. A logout empties the session and leaves the store as it was; the
    session it returns is sent to the login page by every protected
    endpoint. *)
Theorem logout_locks_the_session (env env2 : environment) (r r2 : request) (d d1 : db)
  (s s1 : session) (p : page) (e : endpoint) :
  dispatch env Logout r d s = Return (d1, s1, p) ->
  protected e = true ->
  d1 = d /\ p = Response (Redirect "index") /\
  ss_user_id s1 = None /\ ss_username s1 = None /\ ss_city s1 = None /\
  dispatch env2 e r2 d1 s1 =
  Return (d1, flash "Please login to access this page" "warning" s1,
          Response (Redirect "login")).
Proof.
  intros H Hp. simpl in H. unfold as_page, logout in H. simpl in H.
  injection H as <- <- <-.
  repeat split. apply guard_redirects; [exact Hp | reflexivity].
Qed.

(** ** City and preferences, once more *)

(** X17. A city sent through [/update_city] is the city of the next dashboard:
    the session and the user document hold it, and a dashboard view whose
    fetch succeeds asks the provider for that city and records it. *)
Theorem updated_city_is_the_next_dashboard_city (r : request) (d : db) (s : session)
  (id : ObjectId) (u : user) (c : string) :
  ss_user_id s = Some id ->
  find_user id d = Some u ->
  form_get r "city" = Some c -> c <> "" ->
  exists d1 s1 u1,
    update_city r d s = Return (d1, s1, Redirect "dashboard") /\
    ss_city s1 = Some c /\
    find_user id d1 = Some u1 /\ user_city u1 = c /\
    forall env cw,
      get_current_weather (requests_get env) (now env) c = Return (Some cw) ->
      exists d2 forecast q,
        dashboard env d1 s1 = Return (d2, s1, RenderDashboard u1 (Some cw) forecast) /\
        weather_queries d2 = (weather_queries d ++ [q])%list /\
        wq_city q = c /\ wq_user_id q = id /\ wq_weather_data q = cw.
Proof.
  intros Hs Hu Hc Hne.
  assert (Ht : truthy (Some c) = true) by (destruct c; [congruence | reflexivity]).
  unfold update_city, login_required, update_city_view, session_user_id.
  rewrite Hs, Hc, Ht. simpl.
  eexists _, _, _. split; [reflexivity |]. split; [reflexivity |].
  split.
  { unfold find_user, with_users; simpl.
    apply find_user_update_one; [intro x; reflexivity | exact Hu]. }
  split; [reflexivity |].
  intros env cw Hcw.
  destruct (get_weekly_forecast_returns (requests_get env) c) as [fc Hfc].
  unfold dashboard, login_required, dashboard_view, session_user_id.
  cbn [flash ss_user_id bind]. unfold find_user, with_users. cbn [users].
  rewrite (find_user_update_one id (with_city c) (users d) u (fun x => eq_refl) Hu).
  cbv zeta. unfold user_city. cbn [with_city u_city].
  rewrite Hcw. cbn [bind]. rewrite Hfc. cbn [bind].
  eexists _, fc, _. split; [reflexivity |]. simpl. repeat split.
Qed.




(** X19. What the dashboard shows for the city of the user is what the API
    returns for that city: the same snapshot and the same forecast. *)
Theorem api_returns_what_the_dashboard_shows (env : environment) (d d1 : db)
  (s s1 : session) (id : ObjectId) (u u' : user) (cw : option snapshot)
  (forecast : list summary) :
  ss_user_id s = Some id ->
  find_user id d = Some u ->
  dashboard env d s = Return (d1, s1, RenderDashboard u' cw forecast) ->
  api_weather env (user_city u) d s = Return (d, s, Jsonify cw forecast).
Proof.
  intros Hs Hu H.
  unfold dashboard, login_required, dashboard_view, session_user_id in H.
  rewrite Hs in H. simpl in H. rewrite Hu in H. cbv zeta in H.
  bind_inv H. bind_inv H. injection H as _ _ _ <- <-.
  unfold api_weather, login_required, api_weather_view. rewrite Hs, Ha, Ha0. reflexivity.
Qed.

(** ** History and profile *)

Lemma insert_newest_first_perm (q : weather_query) (l : list weather_query) :
  Permutation (insert_newest_first q l) (q :: l).
Proof.
  induction l as [| x l IH]; simpl; [apply Permutation_refl |].
  destruct (wq_query_time x <? wq_query_time q); [apply Permutation_refl |].
  apply Permutation_trans with (x :: q :: l); [| apply perm_swap].
  apply perm_skip. exact IH.
Qed.

Lemma sort_loop_perm (l : list weather_query) : forall acc : list weather_query,
  Permutation (fold_left (fun sorted q => insert_newest_first q sorted) l acc) (acc ++ l).
Proof.
  induction l as [| q l IH]; intro acc; simpl.
  - rewrite app_nil_r. apply Permutation_refl.
  - apply Permutation_trans with (insert_newest_first q acc ++ l)%list; [apply IH |].
    apply Permutation_trans with ((q :: acc) ++ l)%list.
    + apply Permutation_app_tail. apply insert_newest_first_perm.
    + simpl. apply Permutation_middle.
Qed.







Lemma insert_newest_first_head (q : weather_query) (l : list weather_query) :
  (forall x, In x l -> wq_query_time x < wq_query_time q) ->
  insert_newest_first q l = q :: l.
Proof.
  destruct l as [| x l]; simpl; intro H; [reflexivity |].
  replace (wq_query_time x <? wq_query_time q) with true; [reflexivity |].
  symmetry. apply Z.ltb_lt. apply H. left; reflexivity.
Qed.

(** X21. A dashboard view whose fetch succeeds, at a time later than the
    earlier queries of the user, puts its record at the head of the user's
    history. *)
Theorem new_query_heads_the_history (env : environment) (d : db) (s : session)
  (id : ObjectId) (u : user) (cw : snapshot) :
  ss_user_id s = Some id ->
  find_user id d = Some u ->
  get_current_weather (requests_get env) (now env) (user_city u) = Return (Some cw) ->
  (forall q, In q (weather_queries d) -> wq_user_id q = id -> wq_query_time q < now env) ->
  exists d1 forecast rest,
    dashboard env d s = Return (d1, s, RenderDashboard u (Some cw) forecast) /\
    weather_history d1 s =
    Return (d1, s, HistoryPage ({| wq_user_id := id;
                                   wq_city := user_city u;
                                   wq_query_time := now env;
                                   wq_weather_data := cw;
                                   wq_forecast := forecast |} :: rest)).
Proof.
  intros Hs Hu Hcw Hnew.
  destruct (get_weekly_forecast_returns (requests_get env) (user_city u)) as [fc Hfc].
  unfold dashboard, login_required, dashboard_view, session_user_id.
  rewrite Hs. cbn [bind]. rewrite Hu. cbv zeta. rewrite Hcw. cbn [bind]. rewrite Hfc. cbn [bind].
  eexists _, fc, _. split; [reflexivity |].
  unfold weather_history, login_required_page, weather_history_view, session_user_id.
  rewrite Hs. cbn [bind]. cbv zeta.
  unfold find_queries. cbn [weather_queries]. rewrite filter_app. cbn [filter wq_user_id].
  rewrite Z.eqb_refl. unfold sort_newest_first. rewrite fold_left_app. cbn [fold_left].
  rewrite insert_newest_first_head.
  - cbn [firstn]. reflexivity.
  - intros x Hx. cbn [wq_query_time].
    apply (Permutation_in _ (sort_loop_perm _ [])) in Hx. simpl in Hx.
    apply filter_In in Hx. destruct Hx as [Hin E]. apply Z.eqb_eq in E.
    exact (Hnew x Hin E).
Qed.

(** X22. The profile page counts the recorded dashboard views: it shows the
    number of weather queries of the user; after a dashboard view the number
    is one more when the fetch gave a snapshot and the same when it did not,
    and after a lookup through the API it is the same. *)
Theorem profile_counts_recorded_views (env : environment) (d : db) (s : session)
  (id : ObjectId) (u : user) :
  ss_user_id s = Some id ->
  find_user id d = Some u ->
  let n := Z.of_nat (List.length (find_queries id d)) in
  profile d s = Return (d, s, ProfilePage (Some u) n) /\
  (forall d1 s1 u1 cw forecast,
      dashboard env d s = Return (d1, s1, RenderDashboard u1 cw forecast) ->
      profile d1 s1 =
      Return (d1, s1, ProfilePage (Some u)
                                  (n + match cw with Some _ => 1 | None => 0 end))) /\
  (forall city d1 s1 resp,
      api_weather env city d s = Return (d1, s1, resp) ->
      profile d1 s1 = Return (d1, s1, ProfilePage (Some u) n)).
Proof.
  intros Hs Hu n.
  assert (Hp : profile d s = Return (d, s, ProfilePage (Some u) n)).
  { unfold profile, login_required_page, profile_view, session_user_id.
    rewrite Hs. cbn [bind]. cbv zeta. rewrite Hu. reflexivity. }
  split; [exact Hp |]. split.
  - intros d1 s1 u1 cw fc H.
    unfold dashboard, login_required, dashboard_view, session_user_id in H.
    rewrite Hs in H. cbn [bind] in H. rewrite Hu in H. cbv zeta in H.
    do 2 bind_inv H. injection H as <- <- _ <- _.
    destruct a as [cw |].
    + unfold profile, login_required_page, profile_view, session_user_id.
      rewrite Hs. cbn [bind]. cbv zeta. unfold find_user. cbn [users]. fold (find_user id d).
      rewrite Hu. unfold find_queries. cbn [weather_queries].
      rewrite filter_app. cbn [filter wq_user_id]. rewrite Z.eqb_refl.
      rewrite length_app. cbn [List.length].
      do 3 f_equal. unfold n, find_queries. lia.
    + rewrite Hp. do 3 f_equal. lia.
  - intros city d1 s1 resp H.
    unfold api_weather, login_required, api_weather_view in H. rewrite Hs in H.
    do 2 bind_inv H. injection H as <- <- _. exact Hp.
Qed.

(** ** Redirects *)

(** Where a view redirects to, and what the session then holds. *)
Lemma redirect_cases (env : environment) (e : endpoint) (r : request) (d d1 : db)
  (s s1 : session) (name : string) :
  dispatch env e r d s = Return (d1, s1, Response (Redirect name)) ->
  name = "login" \/ name = "register" \/
  (name = "index" /\ ss_user_id s1 = None) \/
  (name = "dashboard" /\ ss_user_id s1 <> None) \/
  (name = "profile" /\ ss_user_id s1 <> None).
Proof.
  intro H. destruct e; simpl in H.
  - apply as_page_inv in H. destruct H as [resp [H E]]. injection E as <-.
    unfold index in H. destruct (ss_user_id s) eqn:Es; injection H as _ <- E;
      [| discriminate E].
    subst name. right; right; right; left. split; [reflexivity | congruence].
  - apply as_page_inv in H. destruct H as [resp [H E]]. injection E as <-.
    unfold register in H. destruct (String.eqb (method r) "POST"); [| discriminate H].
    destruct (find _ (users d)).
    + injection H as _ _ <-. auto.
    + bind_inv H. injection H as _ _ <-. auto.
  - apply as_page_inv in H. destruct H as [resp [H E]]. injection E as <-.
    unfold login in H. destruct (String.eqb (method r) "POST"); [| discriminate H].
    bind_inv H. destruct (find _ (users d)); [| discriminate H].
    destruct a; [| discriminate H].
    injection H as _ <- <-. right; right; right; left. split; [reflexivity | discriminate].
  - apply as_page_inv in H. destruct H as [resp [H E]]. injection E as <-.
    unfold logout in H. injection H as _ <- <-. right; right; left. split; reflexivity.
  - apply as_page_inv in H. destruct H as [resp [H E]]. injection E as <-.
    unfold dashboard, login_required, dashboard_view, session_user_id in H.
    destruct (ss_user_id s) as [id |]; [| injection H as _ _ <-; auto].
    simpl in H. destruct (find_user id d); [| discriminate H].
    cbv zeta in H. do 2 bind_inv H. discriminate H.
  - apply as_page_inv in H. destruct H as [resp [H E]]. injection E as <-.
    unfold update_city, login_required, update_city_view, session_user_id in H.
    destruct (ss_user_id s) as [id |] eqn:Es; [| injection H as _ _ <-; auto].
    right; right; right; left.
    destruct (truthy (form_get r "city")).
    + destruct (form_get r "city"); simpl in H; injection H as _ <- <-;
        (split; [reflexivity | simpl; congruence]).
    + injection H as _ <- <-. split; [reflexivity | congruence].
  - unfold weather_history, login_required_page, weather_history_view, session_user_id in H.
    destruct (ss_user_id s); simpl in H; [discriminate H |].
    injection H as _ _ <-. auto.
  - apply as_page_inv in H. destruct H as [resp [H E]]. injection E as <-.
    unfold api_weather, login_required, api_weather_view in H.
    destruct (ss_user_id s); [| injection H as _ _ <-; auto].
    do 2 bind_inv H. discriminate H.
  - unfold profile, login_required_page, profile_view, session_user_id in H.
    destruct (ss_user_id s); simpl in H; [discriminate H |].
    injection H as _ _ <-. auto.
  - apply as_page_inv in H. destruct H as [resp [H E]]. injection E as <-.
    unfold update_preferences, login_required, update_preferences_view, session_user_id in H.
    destruct (ss_user_id s) as [id |] eqn:Es; [| injection H as _ _ <-; auto].
    simpl in H. injection H as _ <- <-. right; right; right; right.
    split; [reflexivity | simpl; congruence].
Qed.

(** X23. Every redirect names an endpoint that has a URL, and following it ends
    the chain: the GET request of that endpoint, with the store and the
    session the redirecting view returned, is not answered by another
    redirect. *)
Theorem redirects_lead_to_a_page (env : environment) (e : endpoint) (r : request)
  (d d1 : db) (s s1 : session) (name : string) :
  dispatch env e r d s = Return (d1, s1, Response (Redirect name)) ->
  exists e2,
    endpoint_named name = Some e2 /\
    forall env2 addr d2 s2 p2,
      dispatch env2 e2 (get_request addr) d1 s1 = Return (d2, s2, p2) ->
      forall name2, p2 <> Response (Redirect name2).
Proof.
  intro H. apply redirect_cases in H.
  destruct H as [-> | [-> | [[-> Hs] | [[-> Hs] | [-> Hs]]]]].
  - exists Login. split; [reflexivity |].
    intros env2 addr d2 s2 p2 H name2 E. simpl in H. unfold as_page, login in H.
    simpl in H. injection H as _ _ <-. discriminate E.
  - exists Register. split; [reflexivity |].
    intros env2 addr d2 s2 p2 H name2 E. simpl in H. unfold as_page, register in H.
    simpl in H. injection H as _ _ <-. discriminate E.
  - exists Index. split; [reflexivity |].
    intros env2 addr d2 s2 p2 H name2 E. simpl in H. unfold as_page, index in H.
    rewrite Hs in H. simpl in H. injection H as _ _ <-. discriminate E.
  - exists Dashboard. split; [reflexivity |].
    intros env2 addr d2 s2 p2 H name2 E. simpl in H. apply as_page_inv in H.
    destruct H as [resp [H ->]]. injection E as ->.
    unfold dashboard, login_required, dashboard_view, session_user_id in H.
    destruct (ss_user_id s1) as [id |]; [| congruence].
    simpl in H. destruct (find_user id d1); [| discriminate H].
    cbv zeta in H. do 2 bind_inv H. discriminate H.
  - exists Profile. split; [reflexivity |].
    intros env2 addr d2 s2 p2 H name2 E. simpl in H.
    unfold profile, login_required_page, profile_view, session_user_id in H.
    destruct (ss_user_id s1) as [id |]; [| congruence].
    simpl in H. injection H as _ _ <-. discriminate E.
Qed.
End MoreViews.

(** * The theorems at concrete inputs *)

Lemma reference_set_iter_ok : set_iter_ok reference_runtime.
Proof. intro l. apply Permutation_refl. Qed.

Lemma reversed_set_iter_ok : set_iter_ok reversed_runtime.
Proof. intro l. apply Permutation_sym, Permutation_rev. Qed.

(** The scenario of the specification: two samples of 10 and 15 degrees on one
    day and one of 5 degrees on the next give the pairs (15, 10) and (5, 5). *)
Example two_days_scenario :
  exists out,
    @aggregate reference_runtime two_days = Return out /\
    map (fun s => (sm_temp_max s, sm_temp_min s)) out = [(15, 10); (5, 5)].
Proof. eexists; split; vm_compute; reflexivity. Qed.

Lemma reference_rnd_faithful : @rnd_faithful reference_runtime.
Proof.
  split.
  - intros q j _ H. exists q; split; [reflexivity | exact H].
  - intros q r H E. injection E as <-. exact H.
Qed.

(** A document built by [sample] is well formed when its numbers are. *)
Lemma sample_well_formed {RT : PyRuntime} (k dt : Z) (temp : num) (description : string)
  (humidity speed : num) (icon : string) :
  (exists d, fromtimestamp_date (NInt dt) = Return d) ->
  finite_num temp -> bounded k humidity -> bounded k speed ->
  well_formed k (sample dt temp description humidity speed icon).
Proof.
  intros Hd Ht Hh Hs. unfold well_formed, item_date, item_icon, item_temp,
    item_description, item_humidity, item_wind. simpl.
  repeat split; eauto.
Qed.

Lemma two_days_well_formed : Forall (@well_formed reference_runtime 10) two_days.
Proof.
  unfold two_days.
  repeat (constructor;
          [apply sample_well_formed;
           [eexists; reflexivity
           | eexists; reflexivity
           | eexists; split; [reflexivity | vm_compute; discriminate]
           | eexists; split; [reflexivity | vm_compute; discriminate]] |]).
  constructor.
Qed.

(** C4 at [two_days]: the aggregation completes; two dates, two summaries, in
    input order. *)
Lemma aggregate_groups_by_date_in_order_witness :
  exists out,
    @aggregate reference_runtime two_days = Return out /\
    List.length out = 2%nat /\
    map sm_date out = ["0 %A, %B %d"; "1 %A, %B %d"].
Proof.
  destruct (proj2 (@aggregate_groups_by_date_in_order reference_runtime two_days) 10
              reference_set_iter_ok reference_rnd_faithful
              ltac:(lia) ltac:(simpl; lia) two_days_well_formed) as [out E].
  exists out. split; [exact E |].
  destruct (proj1 (@aggregate_groups_by_date_in_order reference_runtime two_days) out E)
    as [_ [_ [Hlen Hdates]]].
  split; [exact Hlen | exact Hdates].
Defined.

(** C2 at [tie_items], sets iterated in insertion order: the summary carries a
    most frequent description. *)
Lemma description_is_most_frequent_witness :
  exists out,
    @aggregate reference_runtime tie_items = Return out /\
    Forall2 (fun k s =>
               @most_frequent
                 (dd_descriptions (@day_of reference_runtime tie_items k)) (sm_description s) /\
               @first_in_set_order reference_runtime
                 (dd_descriptions (@day_of reference_runtime tie_items k)) (sm_description s))
            (firstn 7 (@dates reference_runtime tie_items)) out.
Proof.
  eexists. split; [vm_compute; reflexivity |].
  exact (@description_is_most_frequent reference_runtime tie_items _
           reference_set_iter_ok eq_refl).
Defined.

(** C2 as stated fails: the descriptions of [tie_items] are cloudy, cloudy,
    rain, rain; the earliest of the two most frequent ones is cloudy; with a
    set that is iterated rain first, the summary says rain. *)
Lemma tie_break_is_not_earliest_seen :
  set_iter_ok reversed_runtime /\
  dd_descriptions (@day_of reversed_runtime tie_items "0 %Y-%m-%d") =
    [JStr "cloudy"; JStr "cloudy"; JStr "rain"; JStr "rain"] /\
  earliest_mode [JStr "cloudy"; JStr "cloudy"; JStr "rain"; JStr "rain"] = JStr "cloudy" /\
  exists s,
    @aggregate reversed_runtime tie_items = Return [s] /\
    sm_description s = JStr "rain" /\
    sm_description s <> earliest_mode [JStr "cloudy"; JStr "cloudy"; JStr "rain"; JStr "rain"].
Proof.
  split; [exact reversed_set_iter_ok |].
  split; [vm_compute; reflexivity |].
  split; [vm_compute; reflexivity |].
  eexists. split; [vm_compute; reflexivity |].
  split; [reflexivity | vm_compute; discriminate].
Qed.

(** C5 at a provider that answers 404: the dashboard of alice stores nothing. *)
Lemma failed_fetch_records_nothing_witness :
  @get_current_weather reference_runtime not_found_provider 1700000000 "Pune" = Return None /\
  exists forecast,
    @dashboard reference_runtime (env_with not_found_provider) db0 alice_session =
    Return (db0, alice_session, RenderDashboard alice None forecast).
Proof.
  refine (@failed_fetch_records_nothing reference_runtime (env_with not_found_provider)
            db0 alice_session 1 alice eq_refl eq_refl _).
  left. eexists. split; [reflexivity | vm_compute; discriminate].
Defined.

(** C1 at a provider that knows the city: the dashboard of alice appends one
    record. *)
Lemma dashboard_records_fetch_witness :
  exists d' forecast cw,
    @dashboard reference_runtime (env_with fair_provider) db0 alice_session =
    Return (d', alice_session, RenderDashboard alice (Some cw) forecast) /\
    List.length (weather_queries d') = 1%nat.
Proof.
  destruct (proj1 (@dashboard_records_fetch_api_does_not reference_runtime
                     (env_with fair_provider) db0 alice_session)
                  1 alice _ eq_refl eq_refl eq_refl) as [fc [_ H]].
  eexists _, fc, _. split; [exact H | reflexivity].
Defined.

(** C1 as stated fails: a lookup through the API whose fetch succeeds returns
    the snapshot and leaves [weather_queries] empty. *)
Lemma api_lookup_records_nothing :
  exists cw forecast,
    @api_weather reference_runtime (env_with fair_provider) "Pune" db0 alice_session =
    Return (db0, alice_session, Jsonify (Some cw) forecast) /\
    weather_queries db0 = [].
Proof. eexists _, _. split; [vm_compute; reflexivity | reflexivity]. Qed.

(** C6 at a second registration of the name alice. *)
Lemma register_rejects_duplicates_witness :
  @register reference_runtime (env_with fair_provider)
    (post [("username", "alice"); ("email", "other@example.org"); ("password", "pw")])
    db0 empty_session =
  Return (db0, flash "Username or email already exists" "danger" empty_session,
          Redirect "register").
Proof.
  exact (proj1 (@register_rejects_duplicates reference_runtime (env_with fair_provider)
                  (post [("username", "alice"); ("email", "other@example.org");
                         ("password", "pw")])
                  db0 empty_session eq_refl)
               alice (or_introl eq_refl) (or_introl eq_refl)).
Defined.

(** C9 at a form without a city. *)
Lemma update_city_without_city_witness :
  @update_city (post []) db0 alice_session = Return (db0, alice_session, Redirect "dashboard").
Proof.
  apply update_city_without_city; [discriminate | left; reflexivity].
Defined.

(** C8 at a form that sends [units=kelvin]. *)
Lemma update_preferences_stores_units_field_witness :
  exists d' s' u',
    @update_preferences (post [("units", "kelvin")]) db0 alice_session =
    Return (d', s', Redirect "profile") /\
    find_user 1 d' = Some u' /\
    units (u_preferences u') = "kelvin" /\
    List.length (users d') = 1%nat.
Proof.
  exact (@update_preferences_stores_units_field (post [("units", "kelvin")])
           db0 alice_session 1 alice eq_refl eq_refl).
Defined.

(** C8 as stated fails: after that request the stored unit system is kelvin,
    which is neither metric nor imperial. *)
Lemma stored_units_can_be_anything :
  exists d' s',
    @update_preferences (post [("units", "kelvin")]) db0 alice_session =
    Return (d', s', Redirect "profile") /\
    map (fun u => units (u_preferences u)) (users d') = ["kelvin"] /\
    ~ In "kelvin" ["metric"; "imperial"].
Proof.
  eexists _, _. split; [vm_compute; reflexivity |].
  split; [reflexivity |].
  intros [H | [H | H]]; [discriminate H | discriminate H | exact H].
Qed.



(** ** The further properties at concrete inputs *)

Lemma reference_hash_round_trip : @hash_round_trip reference_runtime.
Proof. intro p. simpl. apply String.eqb_refl. Qed.

(** X1 at [two_days]. *)
Lemma temperatures_lie_between_the_extremes_witness :
  exists out,
    @aggregate reference_runtime two_days = Return out /\
    Forall2 (fun k s =>
               (forall x n q, In x (dd_temps (@day_of reference_runtime two_days k)) ->
                              as_num x = Some n -> float_of_num n = FFin q ->
                              sm_temp_min s <= round_half_even q <= sm_temp_max s) /\
               (exists x, In x (dd_temps (@day_of reference_runtime two_days k)) /\
                          py_round x = Return (sm_temp_max s)) /\
               (exists x, In x (dd_temps (@day_of reference_runtime two_days k)) /\
                          py_round x = Return (sm_temp_min s)))
            (firstn 7 (@dates reference_runtime two_days)) out.
Proof.
  eexists. split; [vm_compute; reflexivity |].
  apply (@temperatures_lie_between_the_extremes reference_runtime two_days).
  vm_compute; reflexivity.
Defined.

(** X2 at [two_days], whose second date has one sample. *)
Lemma single_sample_day_witness :
  exists out,
    @aggregate reference_runtime two_days = Return out /\
    Forall2 (fun k s =>
               forall item, @group reference_runtime k two_days = [item] ->
                            py_round (value (item_temp item)) = Return (sm_temp_max s) /\
                            sm_temp_min s = sm_temp_max s)
            (firstn 7 (@dates reference_runtime two_days)) out.
Proof.
  eexists. split; [vm_compute; reflexivity |].
  apply (@single_sample_day reference_runtime two_days).
  vm_compute; reflexivity.
Defined.


(** X4 at [tie_items], whose later samples carry another icon. *)
Lemma label_and_icon_of_first_sample_witness :
  exists out,
    @aggregate reference_runtime tie_items = Return out /\
    Forall2 (fun k s =>
               exists first more,
                 @group reference_runtime k tie_items = first :: more /\
                 sm_date s = @item_label reference_runtime first /\
                 item_icon first = Return (sm_icon s))
            (firstn 7 (@dates reference_runtime tie_items)) out.
Proof.
  eexists. split; [vm_compute; reflexivity |].
  apply (@label_and_icon_of_first_sample reference_runtime tie_items).
  vm_compute; reflexivity.
Defined.

(** X5 at [two_days]. *)
Lemma forecast_empty_iff_no_sample_witness :
  exists out,
    @aggregate reference_runtime two_days = Return out /\ (out = [] <-> two_days = []).
Proof.
  eexists. split; [vm_compute; reflexivity |].
  apply (@forecast_empty_iff_no_sample reference_runtime two_days).
  vm_compute; reflexivity.
Defined.

(** X6 at [broken_provider]: three readable samples and one without [dt]. *)
Lemma one_unreadable_sample_empties_the_forecast_witness :
  @get_weekly_forecast reference_runtime broken_provider "Pune" = Return [].
Proof.
  eapply (@one_unreadable_sample_empties_the_forecast reference_runtime broken_provider "Pune"
            _ _ _ (JDict [("main", JDict [("temp", JNum (NInt 3))])])).
  - reflexivity.
  - reflexivity.
  - reflexivity.
  - reflexivity.
  - apply in_or_app. right. left. reflexivity.
  - left. exists KeyError. reflexivity.
Defined.


(** X8 at the profile page, without a session. *)
Lemma anonymous_requests_are_sent_to_login_witness :
  @dispatch reference_runtime (env_with fair_provider) Profile (get_request "10.0.0.1")
    db0 empty_session =
  Return (db0, flash "Please login to access this page" "warning" empty_session,
          Response (Redirect "login")).
Proof.
  apply anonymous_requests_are_sent_to_login; reflexivity.
Defined.

(** X9 at a dashboard view of alice. *)
Lemma the_store_only_grows_witness :
  exists d' s' p,
    @dispatch reference_runtime (env_with fair_provider) Dashboard (get_request "10.0.0.1")
      db0 alice_session = Return (d', s', p) /\
    (exists l, weather_queries d' = (weather_queries db0 ++ l)%list) /\
    (exists l, login_history d' = (login_history db0 ++ l)%list) /\
    (exists l, map u_id (users d') = (map u_id (users db0) ++ l)%list).
Proof.
  eexists _, _, _. split; [vm_compute; reflexivity |].
  eapply (@the_store_only_grows reference_runtime (env_with fair_provider) Dashboard
            (get_request "10.0.0.1") db0 _ alice_session).
  vm_compute; reflexivity.
Defined.

Lemma db0_unique_users : unique_users db0.
Proof.
  split; simpl; (constructor; [intros [] | constructor]).
Qed.

(** X10 at the registration of bob. *)
Lemma usernames_and_emails_stay_unique_witness :
  exists d' s' p,
    @dispatch reference_runtime (env_with fair_provider) Register
      (post [("username", "bob"); ("email", "bob@example.org"); ("password", "pw")])
      db0 empty_session = Return (d', s', p) /\
    List.length (users d') = 2%nat /\
    unique_users d'.
Proof.
  eexists _, _, _. split; [vm_compute; reflexivity |]. split; [reflexivity |].
  eapply (@usernames_and_emails_stay_unique reference_runtime (env_with fair_provider)
            Register
            (post [("username", "bob"); ("email", "bob@example.org"); ("password", "pw")])
            db0 _ empty_session _ _ db0_unique_users).
  vm_compute; reflexivity.
Defined.

Lemma db0_references_users : references_users db0.
Proof. split; intros x []. Qed.

(** X11 at a dashboard view of alice. *)
Lemma records_keep_referring_to_users_witness :
  exists d' s' p,
    @dispatch reference_runtime (env_with fair_provider) Dashboard (get_request "10.0.0.1")
      db0 alice_session = Return (d', s', p) /\
    List.length (weather_queries d') = 1%nat /\
    references_users d'.
Proof.
  eexists _, _, _. split; [vm_compute; reflexivity |]. split; [reflexivity |].
  eapply (@records_keep_referring_to_users reference_runtime (env_with fair_provider)
            Dashboard (get_request "10.0.0.1") db0 _ alice_session _ _ db0_references_users).
  vm_compute; reflexivity.
Defined.

(** X12 at a login of alice with her password. *)
Lemma login_needs_the_password_witness :
  exists d' s',
    @login reference_runtime (env_with fair_provider)
      (post [("username", "alice"); ("password", "secret")]) db0 empty_session =
    Return (d', s', Redirect "dashboard") /\
    ss_user_id s' = Some 1 /\
    List.length (login_history d') = 1%nat.
Proof.
  eexists _, _. split; [vm_compute; reflexivity |].
  destruct (@login_needs_the_password reference_runtime (env_with fair_provider)
              (post [("username", "alice"); ("password", "secret")]) db0 _ empty_session _ _
              eq_refl) as [[H _] | [u [p [_ [Hu [_ [_ [Hid [_ [_ [Hl _]]]]]]]]]]].
  - discriminate H.
  - vm_compute in Hu. injection Hu as <-. split; [exact Hid | reflexivity].
Defined.

(** X13 at an unknown name and at a wrong password for alice. *)
Lemma failed_logins_look_alike_witness :
  @login reference_runtime (env_with fair_provider)
    (post [("username", "mallory"); ("password", "guess")]) db0 empty_session =
  @login reference_runtime (env_with fair_provider)
    (post [("username", "alice"); ("password", "guess")]) db0 empty_session /\
  @login reference_runtime (env_with fair_provider)
    (post [("username", "alice"); ("password", "guess")]) db0 empty_session =
  Return (db0, flash "Invalid username or password" "danger" empty_session,
          RenderTemplate "login.html").
Proof.
  apply (@failed_logins_look_alike reference_runtime (env_with fair_provider)
           (post [("username", "mallory"); ("password", "guess")])
           (post [("username", "alice"); ("password", "guess")])
           db0 empty_session alice "guess"); reflexivity.
Defined.

(** X14 at the registration of bob, followed by his login. *)
Lemma registered_user_can_log_in_witness :
  exists d1 s1 d2 s3,
    @register reference_runtime (env_with fair_provider)
      (post [("username", "bob"); ("email", "bob@example.org"); ("password", "pw")])
      db0 empty_session = Return (d1, s1, Redirect "login") /\
    @login reference_runtime (env_with fair_provider)
      (post [("username", "bob"); ("password", "pw")]) d1 empty_session =
    Return (d2, s3, Redirect "dashboard") /\
    ss_user_id s3 = Some 2 /\
    ss_username s3 = Some (Some "bob") /\
    ss_city s3 = Some "Your city".
Proof.
  eexists _, _. 
  assert (H : @register reference_runtime (env_with fair_provider)
                (post [("username", "bob"); ("email", "bob@example.org"); ("password", "pw")])
                db0 empty_session =
              Return (with_users db0 (users db0 ++
                        [{| u_id := 2; u_username := Some "bob";
                            u_email := Some "bob@example.org";
                            u_password := "pbkdf2:pw"; u_city := Some "Your city";
                            u_created_at := 1700000000;
                            u_preferences := {| units := "metric";
                                                notifications := true |} |}])%list,
                      flash "Registration successful! Please login." "success" empty_session,
                      Redirect "login")) by reflexivity.
  destruct (@registered_user_can_log_in reference_runtime (env_with fair_provider)
              (env_with fair_provider)
              (post [("username", "bob"); ("email", "bob@example.org"); ("password", "pw")])
              (post [("username", "bob"); ("password", "pw")])
              db0 _ empty_session _ empty_session "bob" "pw"
              reference_hash_round_trip eq_refl eq_refl eq_refl eq_refl eq_refl eq_refl H)
    as [d2 [s3 [Hl [Hid [Hn Hc]]]]].
  exists d2, s3. split; [exact H |]. split; [exact Hl |].
  split; [exact Hid |]. split; [exact Hn | exact Hc].
Defined.

(** X15 at an update of the city. *)
Lemma only_login_and_logout_change_the_identity_witness :
  exists d' s' p,
    @dispatch reference_runtime (env_with fair_provider) UpdateCity
      (post [("city", "Mumbai")]) db0 alice_session = Return (d', s', p) /\
    ss_user_id s' = Some 1 /\ ss_username s' = Some (Some "alice").
Proof.
  eexists _, _, _. split; [vm_compute; reflexivity |].
  eapply (@only_login_and_logout_change_the_identity reference_runtime
            (env_with fair_provider) UpdateCity (post [("city", "Mumbai")])
            db0 _ alice_session); [discriminate | discriminate |].
  vm_compute; reflexivity.
Defined.

(** X16 at a logout of alice, followed by a request for the dashboard. *)
Lemma logout_locks_the_session_witness :
  exists s1,
    @dispatch reference_runtime (env_with fair_provider) Logout (get_request "10.0.0.1")
      db0 alice_session = Return (db0, s1, Response (Redirect "index")) /\
    ss_user_id s1 = None /\
    @dispatch reference_runtime (env_with fair_provider) Dashboard (get_request "10.0.0.1")
      db0 s1 =
    Return (db0, flash "Please login to access this page" "warning" s1,
            Response (Redirect "login")).
Proof.
  eexists. split; [vm_compute; reflexivity |].
  destruct (@logout_locks_the_session reference_runtime (env_with fair_provider)
              (env_with fair_provider) (get_request "10.0.0.1") (get_request "10.0.0.1")
              db0 db0 alice_session _ _ Dashboard eq_refl eq_refl)
    as [_ [_ [Hid [_ [_ Hg]]]]].
  split; [exact Hid | exact Hg].
Defined.

(** X17 at an update of alice's city to Mumbai. *)
Lemma updated_city_is_the_next_dashboard_city_witness :
  exists d1 s1 u1,
    update_city (post [("city", "Mumbai")]) db0 alice_session =
    Return (d1, s1, Redirect "dashboard") /\
    ss_city s1 = Some "Mumbai" /\
    find_user 1 d1 = Some u1 /\ user_city u1 = "Mumbai" /\
    exists d2 forecast q cw,
      @dashboard reference_runtime (env_with fair_provider) d1 s1 =
      Return (d2, s1, RenderDashboard u1 (Some cw) forecast) /\
      weather_queries d2 = [q] /\ wq_city q = "Mumbai".
Proof.
  destruct (@updated_city_is_the_next_dashboard_city reference_runtime
              (post [("city", "Mumbai")]) db0 alice_session 1 alice "Mumbai"
              eq_refl eq_refl eq_refl)
    as [d1 [s1 [u1 [H1 [H2 [H3 [H4 H5]]]]]]]; [discriminate |].
  exists d1, s1, u1. repeat (split; [assumption |]).
  destruct (H5 (env_with fair_provider) _ eq_refl)
    as [d2 [fc [q [Hd [Hq [Hc _]]]]]].
  eexists d2, fc, q, _. split; [exact Hd |]. split; [exact Hq | exact Hc].
Defined.


(** X19 at alice and the fair provider. *)
Lemma api_returns_what_the_dashboard_shows_witness :
  exists d1 cw forecast,
    @dashboard reference_runtime (env_with fair_provider) db0 alice_session =
    Return (d1, alice_session, RenderDashboard alice cw forecast) /\
    @api_weather reference_runtime (env_with fair_provider) "Pune" db0 alice_session =
    Return (db0, alice_session, Jsonify cw forecast).
Proof.
  eexists _, _, _. split; [vm_compute; reflexivity |].
  eapply (@api_returns_what_the_dashboard_shows reference_runtime (env_with fair_provider)
            db0 _ alice_session _ 1 alice); [reflexivity | reflexivity |].
  vm_compute; reflexivity.
Defined.


(** X21 at a second dashboard view of alice, a hundred seconds after the
    first. *)
Lemma new_query_heads_the_history_witness :
  exists d1 forecast rest cw,
    @dashboard reference_runtime
      {| now := 1700000100; new_id := 3; requests_get := fair_provider |}
      db1 alice_session =
    Return (d1, alice_session, RenderDashboard alice (Some cw) forecast) /\
    weather_history d1 alice_session =
    Return (d1, alice_session,
            HistoryPage ({| wq_user_id := 1;
                            wq_city := "Pune";
                            wq_query_time := 1700000100;
                            wq_weather_data := cw;
                            wq_forecast := forecast |} :: rest)) /\
    List.length rest = 1%nat.
Proof.
  destruct (@new_query_heads_the_history reference_runtime
              {| now := 1700000100; new_id := 3; requests_get := fair_provider |}
              db1 alice_session 1 alice _ eq_refl eq_refl eq_refl)
    as [d1 [fc [rest [Hd Hh]]]].
  { intros q [<- | []] _. vm_compute. reflexivity. }
  eexists d1, fc, rest, _. split; [exact Hd |]. split; [exact Hh |].
  vm_compute in Hd. injection Hd as <- <-.
  vm_compute in Hh. injection Hh as <-. reflexivity.
Defined.

(** X22 at the store that holds one query of alice. *)
Lemma profile_counts_recorded_views_witness :
  profile db1 alice_session = Return (db1, alice_session, ProfilePage (Some alice) 1) /\
  exists d1 cw forecast,
    @dashboard reference_runtime
      {| now := 1700000100; new_id := 3; requests_get := fair_provider |}
      db1 alice_session =
    Return (d1, alice_session, RenderDashboard alice (Some cw) forecast) /\
    profile d1 alice_session = Return (d1, alice_session, ProfilePage (Some alice) 2).
Proof.
  destruct (@profile_counts_recorded_views reference_runtime
              {| now := 1700000100; new_id := 3; requests_get := fair_provider |}
              db1 alice_session 1 alice eq_refl eq_refl) as [Hp [Hd _]].
  split; [exact Hp |].
  eexists _, _, _. split; [vm_compute; reflexivity |].
  refine (Hd _ _ alice (Some _) _ _). vm_compute; reflexivity.
Defined.

(** X23 at an update of the city, which redirects to the dashboard. *)
Lemma redirects_lead_to_a_page_witness :
  exists d1 s1,
    @dispatch reference_runtime (env_with fair_provider) UpdateCity
      (post [("city", "Mumbai")]) db0 alice_session =
    Return (d1, s1, Response (Redirect "dashboard")) /\
    exists e2,
      endpoint_named "dashboard" = Some e2 /\
      forall env2 addr d2 s2 p2,
        @dispatch reference_runtime env2 e2 (get_request addr) d1 s1 = Return (d2, s2, p2) ->
        forall name2, p2 <> Response (Redirect name2).
Proof.
  eexists _, _. split; [vm_compute; reflexivity |].
  apply (@redirects_lead_to_a_page reference_runtime (env_with fair_provider) UpdateCity
           (post [("city", "Mumbai")]) db0 _ alice_session _ "dashboard").
  vm_compute; reflexivity.
Defined.
